(** * psp: quality control of proteomic matrices (dry.py, qc_gct2pw.py)

    A shallow embedding of [python/dry/dry.py] and [utils/qc_gct2pw.py].

    Numbers.  A NumPy / pandas cell is a binary64 value.  The cells of the
    data are embedded as an exact real or the missing marker [NaN]:
    arithmetic on defined values is exact (no rounding, no overflow, no
    infinities), and [NaN] behaves as in IEEE 754: it is absorbing for every
    operation and every ordered comparison with it is false.  Where the last
    bit decides, in the outlier cutoff of [remove_sample_outliers], the
    numbers are binary64 values with IEEE 754 rounding (module [Binary64]);
    where the range of binary64 decides, in the row normalisation of
    [qc_gct2pw], statements about values name the data they hold for
    ([normalisable]).

    Objects.  A 2-d [ndarray] has a shape and rows of cells and carries no
    labels; a pandas [DataFrame] has a row index, a column index and rows of
    cells.  A raised Python exception is the [Raise] case of [res]. *)

From Stdlib Require Import String Ascii.
From Stdlib Require Import Reals Lra Lia Bool Arith ZArith List.
From Stdlib Require Import Sorted.
From Stdlib Require SpecFloat.
Import ListNotations.
Open Scope R_scope.

(** ** Labels and exceptions *)

(** A row or column label, or a dictionary key: an integer or a string. *)
Inductive label : Type :=
| LInt (z : Z)
| LStr (s : string).

Inductive exn : Type :=
| Exception (msg : string)
| KeyError (key : label)
| IndexError
| AssertionError (msg : string)
| TypeError.

Inductive res (A : Type) : Type :=
| Ok (a : A)
| Raise (e : exn).
Arguments Ok {A} a.
Arguments Raise {A} e.

Definition bind {A B : Type} (m : res A) (k : A -> res B) : res B :=
  match m with
  | Ok a => k a
  | Raise e => Raise e
  end.

Notation "x <- m ;; k" := (bind m (fun x => k))
  (at level 61, m at next level, right associativity).

Definition assert (b : bool) (msg : string) : res unit :=
  if b then Ok tt else Raise (AssertionError msg).

(** ** Cells *)

Module Float.

Inductive float : Type :=
| NaN
| Fin (r : R).

Definition isnull (x : float) : bool :=
  match x with NaN => true | Fin _ => false end.

Definition add (x y : float) : float :=
  match x, y with
  | Fin a, Fin b => Fin (a + b)
  | _, _ => NaN
  end.

Definition sub (x y : float) : float :=
  match x, y with
  | Fin a, Fin b => Fin (a - b)
  | _, _ => NaN
  end.

Definition mul (x y : float) : float :=
  match x, y with
  | Fin a, Fin b => Fin (a * b)
  | _, _ => NaN
  end.

(** Where the divisor is a count, or the number of entries of an empty
    selection, the dividend is zero when the divisor is, and binary64 gives
    nan as here.  The one other divisor that can be zero is a row maximum in
    [qc_gct2pw]: there binary64 gives an infinity for a non-zero dividend,
    which this type does not have, so what is stated about the divided
    values is stated for data without a zero row maximum. *)
Definition div (x y : float) : float :=
  match x, y with
  | Fin a, Fin b => if Req_dec_T b 0 then NaN else Fin (a / b)
  | _, _ => NaN
  end.

Definition square (x : float) : float := mul x x.

Definition fabs (x : float) : float :=
  match x with
  | Fin a => Fin (Rabs a)
  | NaN => NaN
  end.

Definition fsqrt (x : float) : float :=
  match x with
  | Fin a => if Rlt_dec a 0 then NaN else Fin (sqrt a)
  | NaN => NaN
  end.

(** [np.exp2] without its limits: binary64 gives inf from 1024 on and 0
    from -1075 down. *)
Definition exp2 (x : float) : float :=
  match x with
  | Fin a => Fin (Rpower 2 a)
  | NaN => NaN
  end.

(** [x < y] on cells: false as soon as one side is [NaN]. *)
Definition ltb (x y : float) : bool :=
  match x, y with
  | Fin a, Fin b => if Rlt_dec a b then true else false
  | _, _ => false
  end.

Definition of_nat (n : nat) : float := Fin (INR n).

End Float.
Import Float.

(** ** NumPy *)

Module NumPy.

(** A 2-d array: [shape] is (rows, columns); every row has [snd shape]
    cells when the array is well formed. *)
Record ndarray : Type := mk_ndarray {
  shape : nat * nat;
  rows : list (list float)
}.

Definition wf (a : ndarray) : Prop :=
  length (rows a) = fst (shape a) /\
  Forall (fun r => length r = snd (shape a)) (rows a).

(** The columns of [n]-cell rows, each as the list of its cells. *)
Definition transpose (n : nat) (rs : list (list float)) : list (list float) :=
  map (fun j => map (fun r => nth j r NaN) rs) (seq 0 n).

Definition cols (a : ndarray) : list (list float) :=
  transpose (snd (shape a)) (rows a).

(** Python's builtin [sum]: a left fold of [+] from the integer 0. *)
Definition py_sum (l : list float) : float := fold_left add l (Fin 0).

(** [np.mean]: the sum of all entries over their number; nothing is
    skipped, and the empty array gives 0/0. *)
Definition mean (l : list float) : float :=
  div (py_sum l) (of_nat (length l)).

(** [np.std], [ddof = 0]: the square root of the mean squared deviation
    from the mean. *)
Definition std (l : list float) : float :=
  let m := mean l in
  fsqrt (mean (map (fun x => square (fabs (sub x m))) l)).

(** Selection of the entries of [l] at the true positions of a boolean
    mask of the same length. *)
Fixpoint select {A : Type} (mask : list bool) (l : list A) : list A :=
  match mask, l with
  | b :: mask', x :: l' => if b then x :: select mask' l' else select mask' l'
  | _, _ => []
  end.

(** [arr < cutoff], entry by entry (the same on a pandas series). *)
Definition lt_scalar (s : list float) (cutoff : float) : list bool :=
  map (fun x => ltb x cutoff) s.

Definition count_true (mask : list bool) : nat :=
  length (filter (fun b => b) mask).

(** [a[:, mask]] with a boolean mask: IndexError unless the mask has one
    entry per column. *)
Definition index_columns (a : ndarray) (mask : list bool) : res ndarray :=
  if Nat.eqb (length mask) (snd (shape a))
  then Ok (mk_ndarray (fst (shape a), count_true mask)
                      (map (select mask) (rows a)))
  else Raise IndexError.




End NumPy.

(** ** pandas *)

Module Pandas.

Definition label_eqb (a b : label) : bool :=
  match a, b with
  | LInt x, LInt y => Z.eqb x y
  | LStr x, LStr y => String.eqb x y
  | _, _ => false
  end.

(** A frame of cells: [index] labels the rows, [columns] labels the
    columns, [values] holds the rows. *)
Record DataFrame : Type := mk_df {
  index : list label;
  columns : list label;
  values : list (list float)
}.

Definition wf (df : DataFrame) : Prop :=
  length (values df) = length (index df) /\
  Forall (fun r => length r = length (columns df)) (values df).

(** [df.shape] *)
Definition shape (df : DataFrame) : nat * nat :=
  (length (index df), length (columns df)).

(** [df.values]: the cells as a bare array; the labels are not part of it. *)
Definition to_values (df : DataFrame) : NumPy.ndarray :=
  NumPy.mk_ndarray (shape df) (values df).

(** The cells of the column at position [j]. *)
Definition column (j : nat) (df : DataFrame) : list float :=
  map (fun r => nth j r NaN) (values df).

Definition cols (df : DataFrame) : list (list float) :=
  NumPy.transpose (length (columns df)) (values df).

Definition count_nan (l : list float) : nat :=
  length (filter isnull l).

(** [df.isnull().sum()] and [df.isnull().sum(axis=1)] *)
Definition isnull_sum (df : DataFrame) : list nat := map count_nan (cols df).
Definition isnull_sum_axis1 (df : DataFrame) : list nat := map count_nan (values df).

(** [counts.divide(n)] on a series of integer counts. *)
Definition divide (counts : list nat) (n : nat) : list float :=
  map (fun c => div (of_nat c) (of_nat n)) counts.

(** [df.loc[:, mask]] and [df.loc[mask, :]] with a boolean series over the
    same labels. *)
Definition loc_columns (df : DataFrame) (mask : list bool) : DataFrame :=
  mk_df (index df) (NumPy.select mask (columns df))
        (map (NumPy.select mask) (values df)).

Definition loc_rows (df : DataFrame) (mask : list bool) : DataFrame :=
  mk_df (NumPy.select mask (index df)) (columns df)
        (NumPy.select mask (values df)).

(** [df.loc[:, key]] with an integer key is a lookup by LABEL: KeyError
    when no column carries the label.  (Frames have pairwise distinct
    column labels wherever this is used.) *)
Fixpoint position (key : label) (ls : list label) : option nat :=
  match ls with
  | [] => None
  | l :: ls' =>
      if label_eqb key l then Some 0%nat
      else option_map S (position key ls')
  end.

Definition loc_column (df : DataFrame) (key : Z) : res (list float) :=
  match position (LInt key) (columns df) with
  | Some j => Ok (column j df)
  | None => Raise (KeyError (LInt key))
  end.

(** The defined cells of a series, in order (pandas reductions skip
    missing cells). *)
Fixpoint dropna (l : list float) : list R :=
  match l with
  | [] => []
  | NaN :: l' => dropna l'
  | Fin r :: l' => r :: dropna l'
  end.

Definition Rsum (l : list R) : R := fold_right Rplus 0 l.

(** [mean(skipna=True)]: missing when no cell is defined. *)
Definition nanmean (l : list float) : float :=
  let v := dropna l in
  div (Fin (Rsum v)) (of_nat (length v)).

(** [var(ddof, skipna=True)]: missing when at most [ddof] cells are
    defined. *)
Definition nanvar (ddof : nat) (l : list float) : float :=
  let v := dropna l in
  let count := length v in
  if Nat.leb count ddof then NaN
  else
    let avg := Rsum v / INR count in
    Fin (Rsum (map (fun x => (avg - x) * (avg - x)) v) / INR (count - ddof)).

(** [std(skipna=True)], pandas' default [ddof = 1]. *)
Definition nanstd (l : list float) : float := fsqrt (nanvar 1 l).

Fixpoint insert_sorted (x : R) (l : list R) : list R :=
  match l with
  | [] => [x]
  | y :: l' => if Rle_dec x y then x :: l else y :: insert_sorted x l'
  end.

Definition sort (l : list R) : list R := fold_right insert_sorted [] l.

(** [median(skipna=True)]: the middle defined cell, or the mean of the two
    middle ones; missing when no cell is defined. *)
Definition nanmedian (l : list float) : float :=
  let v := sort (dropna l) in
  let n := length v in
  if Nat.eqb n 0 then NaN
  else if Nat.odd n then Fin (nth (n / 2) v 0)
  else Fin ((nth (n / 2 - 1) v 0 + nth (n / 2) v 0) / 2).

(** [mad(skipna=True)]: the mean absolute deviation from the mean. *)
Definition nanmad (l : list float) : float :=
  let m := nanmean l in
  nanmean (map (fun x => fabs (sub x m)) l).

(** [max(skipna=True)]: missing when no cell is defined. *)
Definition nanmax (l : list float) : float :=
  match dropna l with
  | [] => NaN
  | x :: v => Fin (fold_left Rmax v x)
  end.

(** Reductions along an axis: [axis=1] reduces every row, [axis=0] every
    column. *)
Definition reduce_rows (f : list float -> float) (df : DataFrame) : list float :=
  map f (values df).
Definition reduce_cols (f : list float -> float) (df : DataFrame) : list float :=
  map f (cols df).

Fixpoint map2 {A B C : Type} (f : A -> B -> C) (l : list A) (l' : list B) : list C :=
  match l, l' with
  | a :: l, b :: l' => f a b :: map2 f l l'
  | _, _ => []
  end.

(** [df.add(arr)] with a 1-d array of one entry per column (as at its one
    call): entry [j] is added to every cell of column [j]. *)
Definition add_columns (df : DataFrame) (arr : list float) : DataFrame :=
  mk_df (index df) (columns df) (map (fun r => map2 add r arr) (values df)).

(** [df.div(series, axis="rows")]: row [i] is divided by entry [i]. *)
Definition div_rows (df : DataFrame) (s : list float) : DataFrame :=
  mk_df (index df) (columns df)
        (map2 (fun r d => map (fun x => div x d) r) (values df) s).

Definition map_cells (f : float -> float) (df : DataFrame) : DataFrame :=
  mk_df (index df) (columns df) (map (map f) (values df)).

End Pandas.

(** ** dry.py *)

Module Dry.

Definition allowed_assay_types : list string :=
  ["PR1"; "GR1"; "DR1"]%string.

Definition str_in (s : string) (l : list string) : bool :=
  existsb (String.eqb s) l.

(** [np.array(s, dtype=np.str)] read back: NumPy keeps the characters in
    fixed-width storage padded with NUL, so the NUL characters at the end of
    [s] are not told from the padding and are dropped; a NUL before another
    character is kept. *)
Fixpoint np_str (s : string) : string :=
  match s with
  | EmptyString => EmptyString
  | String c s' =>
      match np_str s' with
      | EmptyString =>
          if Ascii.eqb c Ascii.zero then EmptyString else String c EmptyString
      | rest => String c rest
      end
  end.

(** [determine_assay_type(prov_code)].  The 0-d string array made from the
    argument is represented by the string it holds, and [not in] on the
    array of allowed types by equality with one of its entries. *)
Definition determine_assay_type (prov_code : string) : res string :=
  let assay_type := np_str prov_code in
  if negb (str_in assay_type allowed_assay_types)
  then Raise (Exception
    ("The first entry of the provenance code should be the assay type. " ++
     "Assay type not recognized. assay_type: " ++ assay_type)%string)
  else Ok assay_type.


(** [filter_samples(df, sample_pct_cutoff)] *)
Definition filter_samples (df : Pandas.DataFrame) (sample_pct_cutoff : float)
    : NumPy.ndarray :=
  let num_nans := Pandas.isnull_sum df in
  let num_probes := fst (Pandas.shape df) in
  let pct_nans_per_sample := Pandas.divide num_nans num_probes in
  let out_df :=
    Pandas.loc_columns df (NumPy.lt_scalar pct_nans_per_sample sample_pct_cutoff) in
  Pandas.to_values out_df.

(** [filter_probes(df, probe_pct_cutoff, probe_sd_cutoff)] *)
Definition filter_probes (df : Pandas.DataFrame)
    (probe_pct_cutoff probe_sd_cutoff : float) : Pandas.DataFrame :=
  let num_nans := Pandas.isnull_sum_axis1 df in
  let num_samples := snd (Pandas.shape df) in
  let pct_nans_per_probe := Pandas.divide num_nans num_samples in
  let probe_sds := Pandas.reduce_rows Pandas.nanstd df in
  let probes_to_keep :=
    Pandas.map2 andb (NumPy.lt_scalar pct_nans_per_probe probe_pct_cutoff)
                     (NumPy.lt_scalar probe_sds probe_sd_cutoff) in
  let out_df := Pandas.loc_rows df probes_to_keep in
  out_df.

(** [function_to_optimize(offset, values, medians)]: [values] and
    [medians] are series over the same row index, so the arithmetic is
    cell by cell; the total is taken by Python's builtin [sum]. *)
Definition function_to_optimize (offset : float) (values medians : list float)
    : float :=
  NumPy.py_sum
    (map square (Pandas.map2 sub (map (fun v => add offset v) values) medians)).

(** The objective as the specification words it: the squared deviations
    are summed over the probes whose term is defined, missing ones left
    out.  (Compared with [function_to_optimize] above.) *)
Definition objective_spec (offset : float) (values medians : list float)
    : float :=
  Fin (Pandas.Rsum (Pandas.dropna
    (map square (Pandas.map2 sub (map (fun v => add offset v) values) medians)))).

(** The result object of [scipy.optimize.minimize_scalar], and the
    minimiser itself as the caller sees it: given the objective and the
    bounds it returns such an object. *)
Record OptimizeResult : Type := mk_result {
  x : float;
  fun_ : float;
  success : bool
}.

Definition minimizer : Type := (float -> float) -> float * float -> OptimizeResult.

(** [arr[i] = v] on a 1-d array: IndexError out of range. *)
Fixpoint set_item {A : Type} (arr : list A) (i : nat) (v : A) : res (list A) :=
  match arr, i with
  | [], _ => Raise IndexError
  | _ :: arr', O => Ok (v :: arr')
  | a :: arr', S i' => arr'' <- set_item arr' i' v ;; Ok (a :: arr'')
  end.

(** [for i in l: s = body(i, s)] *)
Fixpoint for_each {S : Type} (body : nat -> S -> res S) (l : list nat) (s : S)
    : res S :=
  match l with
  | [] => Ok s
  | i :: l' => s' <- body i s ;; for_each body l' s'
  end.

(** The four output arrays of the optimisation loop. *)
Record outputs : Type := mk_outputs {
  optimized_offsets : list float;
  optimized_distances : list float;
  unoptimized_distances : list float;
  success_bools : list bool
}.

Definition loop_body (minimize_scalar : minimizer) (df : Pandas.DataFrame)
    (probe_medians : list float) (offset_bounds : float * float)
    (sample_ind : nat) (o : outputs) : res outputs :=
  sample_vals <- Pandas.loc_column df (Z.of_nat sample_ind) ;;
  unopt <- set_item (unoptimized_distances o) sample_ind
             (function_to_optimize (Fin 0) sample_vals probe_medians) ;;
  let optimization_result :=
    minimize_scalar
      (fun offset => function_to_optimize offset sample_vals probe_medians)
      offset_bounds in
  offs <- set_item (optimized_offsets o) sample_ind (x optimization_result) ;;
  dists <- set_item (optimized_distances o) sample_ind (fun_ optimization_result) ;;
  succ <- set_item (success_bools o) sample_ind (success optimization_result) ;;
  Ok (mk_outputs offs dists unopt succ).

(** [optimize_sample_balance(df, offset_bounds)].  The result is the
    returned tuple together with what the call printed: the frame of the
    samples that did not converge, when there is one. *)
Definition optimize_sample_balance (minimize_scalar : minimizer)
    (df : Pandas.DataFrame) (offset_bounds : float * float)
    : res ((Pandas.DataFrame * list float) * list Pandas.DataFrame) :=
  let probe_medians := Pandas.reduce_rows Pandas.nanmedian df in
  let num_samples := snd (Pandas.shape df) in
  let init :=
    mk_outputs (repeat (Fin 0) num_samples) (repeat (Fin 0) num_samples)
               (repeat (Fin 0) num_samples) (repeat false num_samples) in
  o <- for_each (loop_body minimize_scalar df probe_medians offset_bounds)
                (seq 0 num_samples) init ;;
  let stdout :=
    if negb (forallb (fun b => b) (success_bools o))
    then [Pandas.loc_columns df (map negb (success_bools o))]
    else [] in
  let df_with_offsets := Pandas.add_columns df (optimized_offsets o) in
  Ok ((df_with_offsets, optimized_distances o), stdout).

Definition default_offset_bounds : float * float := (Fin (-7), Fin 7).

(** The local [cutoff] of [remove_sample_outliers]. *)
Definition outlier_cutoff (distances : list float) (sd_sample_outlier_cutoff : float)
    : float :=
  add (NumPy.mean distances) (mul (NumPy.std distances) sd_sample_outlier_cutoff).

(** [remove_sample_outliers(df, distances, sd_sample_outlier_cutoff)] on
    a 2-d array, with exact arithmetic in the cutoff.  ([Binary64] below has
    the function on frames and arrays with the cutoff as NumPy rounds
    it.) *)
Definition remove_sample_outliers (df : NumPy.ndarray) (distances : list float)
    (sd_sample_outlier_cutoff : float) : res NumPy.ndarray :=
  let cutoff := outlier_cutoff distances sd_sample_outlier_cutoff in
  NumPy.index_columns df (NumPy.lt_scalar distances cutoff).

End Dry.

(** ** dry.py: outlier removal in binary64 *)

(** [remove_sample_outliers] keeps a sample by a strict comparison of its
    distance with a cutoff computed from all distances, so the last bit of
    the cutoff decides.  Here the distances are binary64 values (the
    Standard Library's [SpecFloat]: 53 bits of precision, round to nearest
    even) and NumPy's reductions are written out as NumPy computes them. *)
Module Binary64.

Definition binary64 : Type := SpecFloat.spec_float.

Definition prec : Z := 53%Z.
Definition emax : Z := 1024%Z.

Definition add : binary64 -> binary64 -> binary64 := SpecFloat.SFadd prec emax.
Definition sub : binary64 -> binary64 -> binary64 := SpecFloat.SFsub prec emax.
Definition mul : binary64 -> binary64 -> binary64 := SpecFloat.SFmul prec emax.
Definition div : binary64 -> binary64 -> binary64 := SpecFloat.SFdiv prec emax.
Definition sqrt : binary64 -> binary64 := SpecFloat.SFsqrt prec emax.
Definition ltb : binary64 -> binary64 -> bool := SpecFloat.SFltb.

Definition zero : binary64 := SpecFloat.S754_zero false.

(** The conversion of an integer, and of a count ([float(n)]). *)
Definition of_Z (z : Z) : binary64 :=
  SpecFloat.binary_normalize prec emax z 0%Z false.

Definition of_nat (n : nat) : binary64 := of_Z (Z.of_nat n).

(** The value of the literal [p/q] for integers of at most 53 bits: the
    binary64 value nearest to the quotient. *)
Definition ratio (p q : Z) : binary64 := div (of_Z p) (of_Z q).

(** NumPy's [pairwise_sum] of the float64 [add] loop.  Fewer than 8
    entries are added from left to right.  Up to 128 are added into eight
    running sums, entry [i] into sum [i mod 8], block by block; the eight
    sums are combined as a balanced tree and the entries after the last
    full block are added one by one.  A longer array is split in two
    halves, the first of a length divisible by 8, which are summed the same
    way. *)
Fixpoint accumulate (blocks : nat) (r a : list binary64)
    : list binary64 * list binary64 :=
  match blocks with
  | O => (r, a)
  | S blocks' => accumulate blocks' (Pandas.map2 add r (firstn 8 a)) (skipn 8 a)
  end.

Definition combine8 (r : list binary64) : binary64 :=
  let r_ (i : nat) := nth i r zero in
  add (add (add (r_ 0%nat) (r_ 1%nat)) (add (r_ 2%nat) (r_ 3%nat)))
      (add (add (r_ 4%nat) (r_ 5%nat)) (add (r_ 6%nat) (r_ 7%nat))).

(** [fuel] bounds the depth of the splitting; the length of the array is
    always enough. *)
Fixpoint pairwise_sum (fuel : nat) (a : list binary64) : binary64 :=
  let n := length a in
  if (n <? 8)%nat then fold_left add a zero
  else if (n <=? 128)%nat then
    let '(r, rest) := accumulate (n / 8 - 1)%nat (firstn 8 a) (skipn 8 a) in
    fold_left add rest (combine8 r)
  else
    match fuel with
    | O => zero
    | S fuel' =>
        let n2 := (n / 2 - (n / 2) mod 8)%nat in
        add (pairwise_sum fuel' (firstn n2 a)) (pairwise_sum fuel' (skipn n2 a))
    end.

(** [np.add.reduce] on a 1-d float64 array: the result starts as the
    identity 0 and the loop adds the pairwise sum of the entries to it. *)
Definition sum (a : list binary64) : binary64 :=
  add zero (pairwise_sum (length a) a).

(** [np.mean]: the sum over the number of entries. *)
Definition mean (a : list binary64) : binary64 :=
  div (sum a) (of_nat (length a)).

(** [np.std], [ddof = 0]: NumPy's [_var] subtracts the mean from every
    entry, squares the differences, sums them and divides by the number of
    entries; the deviation is the square root. *)
Definition std (a : list binary64) : binary64 :=
  let arrmean := mean a in
  let x := map (fun v => sub v arrmean) a in
  let x := map (fun v => mul v v) x in
  sqrt (div (sum x) (of_nat (length a))).

(** [arr < cutoff], entry by entry. *)
Definition lt_scalar (s : list binary64) (cutoff : binary64) : list bool :=
  map (fun d => ltb d cutoff) s.

(** What a caller hands over as [df]: a pandas frame, as the docstring
    says and as [optimize_sample_balance] returns, or a bare 2-d array, as
    [filter_samples] returns. *)
Inductive matrix : Type :=
| Frame (df : Pandas.DataFrame)
| Array (a : NumPy.ndarray).

(** [df[:, mask]].  On an array the boolean mask selects columns.  On a
    frame the key is the pair of a slice and an array, which
    [DataFrame.__getitem__] takes for one column label: looking it up in the
    column index needs its hash, which a pair holding an array does not
    have, so the lookup raises whatever the frame and the mask are
    (TypeError; pandas since 1.1 reports the same failure as
    InvalidIndexError, for which [TypeError] stands here as well). *)
Definition getitem_columns (df : matrix) (mask : list bool) : res matrix :=
  match df with
  | Frame _ => Raise TypeError
  | Array a => out <- NumPy.index_columns a mask ;; Ok (Array out)
  end.

(** The local [cutoff] of [remove_sample_outliers]. *)
Definition outlier_cutoff (distances : list binary64)
    (sd_sample_outlier_cutoff : binary64) : binary64 :=
  add (mean distances) (mul (std distances) sd_sample_outlier_cutoff).

(** [remove_sample_outliers(df, distances, sd_sample_outlier_cutoff)] *)
Definition remove_sample_outliers (df : matrix) (distances : list binary64)
    (sd_sample_outlier_cutoff : binary64) : res matrix :=
  let cutoff := outlier_cutoff distances sd_sample_outlier_cutoff in
  getitem_columns df (lt_scalar distances cutoff).

End Binary64.

(** ** qc_gct2pw.py *)

Module QcGct2pw.

Definition PROV_CODE_FIELD : string := "provenance_code".
Definition PROV_CODE_DELIMITER : ascii := "+"%char.
Definition LOG_TRANSFORM_PROV_CODE_ENTRY : string := "L2X".

(** A column of a frame of mixed content: strings or cells. *)
Inductive column : Type :=
| StrCol (l : list string)
| NumCol (l : list float).

Definition len (c : column) : nat :=
  match c with
  | StrCol l => length l
  | NumCol l => length l
  end.

(** A Python dictionary with string keys, in insertion order; a frame of
    mixed columns is the list of its named columns. *)
Definition dict : Type := list (string * column).

Fixpoint dict_get (d : dict) (k : string) : res column :=
  match d with
  | [] => Raise (KeyError (LStr k))
  | (k', v) :: d' => if String.eqb k k' then Ok v else dict_get d' k
  end.

Fixpoint dict_set (d : dict) (k : string) (v : column) : dict :=
  match d with
  | [] => [(k, v)]
  | (k', v') :: d' =>
      if String.eqb k k' then (k, v) :: d' else (k', v') :: dict_set d' k v
  end.

(** [d.update(other)] *)
Definition dict_update (d other : dict) : dict :=
  fold_left (fun acc kv => dict_set acc (fst kv) (snd kv)) other d.

(** [sorted(keys)] *)
Fixpoint insert_key (k : string) (l : list string) : list string :=
  match l with
  | [] => [k]
  | k' :: l' => if String.leb k k' then k :: l else k' :: insert_key k l'
  end.

Definition sorted (l : list string) : list string := fold_right insert_key [] l.

(** [s.split(delimiter)] for a one-character delimiter. *)
Fixpoint split (delimiter : ascii) (s : string) : list string :=
  match s with
  | EmptyString => [EmptyString]
  | String c s' =>
      if Ascii.eqb c delimiter then EmptyString :: split delimiter s'
      else match split delimiter s' with
           | [] => [String c EmptyString]
           | w :: ws => String c w :: ws
           end
  end.

(** The parsed gct object: the data frame and the column metadata, a frame
    of strings with one row per sample, given by its fields. *)
Record GCToo : Type := mk_gct {
  data_df : Pandas.DataFrame;
  col_metadata_df : list (string * list string)
}.

(** [col_meta[field].values] *)
Fixpoint get_field (col_meta : list (string * list string)) (field : string)
    : res (list string) :=
  match col_meta with
  | [] => Raise (KeyError (LStr field))
  | (f, v) :: col_meta' =>
      if String.eqb field f then Ok v else get_field col_meta' field
  end.

(** The loop of [extract_plate_and_well_names] over the plate names, from
    the flag [plate_names_same].  (The assertion message is kept without
    the list of names that the source formats into it.) *)
Fixpoint check_plate_names (first : string) (plate_names_same : bool)
    (l : list string) : res bool :=
  match l with
  | [] => Ok plate_names_same
  | plate :: l' =>
      let plate_names_same := plate_names_same && String.eqb plate first in
      _ <- assert plate_names_same "All samples must have the same plate name." ;;
      check_plate_names first plate_names_same l'
  end.

Definition extract_plate_and_well_names (col_meta : list (string * list string))
    (plate_field well_field : string) : res (list string * list string) :=
  plate_names <- get_field col_meta plate_field ;;
  _ <- check_plate_names (hd EmptyString plate_names) true plate_names ;;
  well_names <- get_field col_meta well_field ;;
  Ok (plate_names, well_names).

Fixpoint check_lengths (kwargs : dict) (num_wells : nat) : res unit :=
  match kwargs with
  | [] => Ok tt
  | kwarg :: kwargs' =>
      _ <- assert (Nat.eqb (len (snd kwarg)) num_wells)
             "The entry has a length which is not equal to num_wells." ;;
      check_lengths kwargs' num_wells
  end.

(** [temp_df[cols]] *)
Fixpoint select_columns (d : dict) (cols : list string) : res dict :=
  match cols with
  | [] => Ok []
  | c :: cols' =>
      v <- dict_get d c ;;
      rest <- select_columns d cols' ;;
      Ok ((c, v) :: rest)
  end.

Definition assemble_output_df (plate_names well_names : list string)
    (kwargs : dict) : res dict :=
  let PLATE_FIELD := "plate_name"%string in
  let WELL_FIELD := "well_name"%string in
  let plate_and_well_dict :=
    [(PLATE_FIELD, StrCol plate_names); (WELL_FIELD, StrCol well_names)] in
  _ <- assert (Nat.eqb (length plate_names) (length well_names)) "" ;;
  let num_wells := length well_names in
  _ <- check_lengths kwargs num_wells ;;
  let df_dict := dict_update plate_and_well_dict kwargs in
  let temp_df := df_dict in
  let cols := [PLATE_FIELD; WELL_FIELD] ++ sorted (map fst kwargs) in
  select_columns temp_df cols.

(** The data after the two transformations of [main]: the inverse of the
    log transform when the first sample's provenance code has the tag, and
    the division of every row by its maximum. *)
Definition transformed (data : Pandas.DataFrame) (prov_code : list string)
    : Pandas.DataFrame :=
  if Dry.str_in LOG_TRANSFORM_PROV_CODE_ENTRY prov_code
  then Pandas.map_cells exp2 data
  else data.

Definition divided (data : Pandas.DataFrame) : Pandas.DataFrame :=
  let max_row_values := Pandas.reduce_rows Pandas.nanmax data in
  Pandas.div_rows data max_row_values.

(** [main(args)] between the parsing of the gct file and the writing of
    the pw file: from the parsed object to the frame that is written. *)
Definition main (plate_field well_field : string) (gct : GCToo) : res dict :=
  names <- extract_plate_and_well_names (col_metadata_df gct) plate_field well_field ;;
  let plate_names := fst names in
  let well_names := snd names in
  prov_code_series <- get_field (col_metadata_df gct) PROV_CODE_FIELD ;;
  let prov_code_list_series := map (split PROV_CODE_DELIMITER) prov_code_series in
  prov_code <- match prov_code_list_series with
               | [] => Raise IndexError
               | first :: _ => Ok first
               end ;;
  let data_df := transformed (data_df gct) prov_code in
  let divided_data_df := divided data_df in
  let medium_over_heavy_medians := Pandas.reduce_cols Pandas.nanmedian divided_data_df in
  let medium_over_heavy_means := Pandas.reduce_cols Pandas.nanmean divided_data_df in
  let medium_over_heavy_mads := Pandas.reduce_cols Pandas.nanmad divided_data_df in
  let medium_over_heavy_sds := Pandas.reduce_cols Pandas.nanstd divided_data_df in
  assemble_output_df plate_names well_names
    [("medium_over_heavy_median"%string, NumCol medium_over_heavy_medians);
     ("medium_over_heavy_mad"%string, NumCol medium_over_heavy_mads)].

(** The lines of the written file after its header: one record per row of
    the frame, holding that row's entry of every column. *)
Inductive entry : Type :=
| Str (s : string)
| Num (x : float).

Definition entry_at (j : nat) (c : column) : entry :=
  match c with
  | StrCol l => Str (nth j l EmptyString)
  | NumCol l => Num (nth j l NaN)
  end.

Definition num_rows (out_df : dict) : nat :=
  match out_df with
  | [] => 0
  | (_, c) :: _ => len c
  end.

Definition records (out_df : dict) : list (list entry) :=
  map (fun j => map (fun kv => entry_at j (snd kv)) out_df)
      (seq 0 (num_rows out_df)).

End QcGct2pw.

(** ** Sample data *)

Module Sample.

(** Two probes by two samples; the second sample has no defined cell. *)
Definition frame : Pandas.DataFrame :=
  Pandas.mk_df [LStr "p1"; LStr "p2"] [LStr "s1"; LStr "s2"]
               [[Fin 1; NaN]; [Fin 2; NaN]].

(** The same cells under other labels. *)
Definition frame_relabelled : Pandas.DataFrame :=
  Pandas.mk_df [LStr "q1"; LStr "q2"] [LStr "t1"; LStr "t2"]
               [[Fin 1; NaN]; [Fin 2; NaN]].

(** One probe, one sample, under pandas' default column label 0; a
    minimiser that reports convergence and one that does not, both staying
    at offset 0. *)
Definition frame_1x1 : Pandas.DataFrame :=
  Pandas.mk_df [LStr "p1"] [LInt 0] [[Fin 5]].

Definition settle : Dry.minimizer :=
  fun f _ => Dry.mk_result (Fin 0) (f (Fin 0)) true.

Definition stall : Dry.minimizer :=
  fun f _ => Dry.mk_result (Fin 0) (f (Fin 0)) false.

(** A parsed gct of three probes and two samples on one plate, not log
    transformed. *)
Definition gct : QcGct2pw.GCToo :=
  QcGct2pw.mk_gct
    (Pandas.mk_df [LStr "p1"; LStr "p2"; LStr "p3"] [LStr "s1"; LStr "s2"]
                  [[Fin 1; Fin 4]; [Fin 2; Fin 4]; [Fin 4; Fin 4]])
    [("det_plate", ["P1"; "P1"]); ("det_well", ["A01"; "A02"]);
     ("provenance_code", ["PR1+SF8"; "PR1+SF8"])]%string.

(** The same data with the two samples on different plates. *)
Definition gct_two_plates : QcGct2pw.GCToo :=
  QcGct2pw.mk_gct (QcGct2pw.data_df gct)
    [("det_plate", ["P1"; "P2"]); ("det_well", ["A01"; "A02"]);
     ("provenance_code", ["PR1+SF8"; "PR1+SF8"])]%string.

(** Two probes by two samples under the default column labels; the second
    sample has a missing cell. *)
Definition frame_missing : Pandas.DataFrame :=
  Pandas.mk_df [LStr "p1"; LStr "p2"] [LInt 0; LInt 1]
               [[Fin 1; NaN]; [Fin 2; Fin 3]].

(** A parsed gct without any sample. *)
Definition gct_no_samples : QcGct2pw.GCToo :=
  QcGct2pw.mk_gct (Pandas.mk_df [LStr "p1"] [] [[]])
    [("det_plate", []); ("det_well", []); ("provenance_code", [])]%string.

(** One probe, two samples whose labels 1, 0 are in the reverse of their
    positions. *)
Definition frame_swapped : Pandas.DataFrame :=
  Pandas.mk_df [LStr "p1"] [LInt 1; LInt 0] [[Fin 1; Fin 10]].

(** A frame with a column and no row. *)
Definition frame_no_rows : Pandas.DataFrame :=
  Pandas.mk_df [] [LStr "s1"] [].

(** One row of five cells. *)
Definition array_1x5 : NumPy.ndarray :=
  NumPy.mk_ndarray (1, 5)%nat [[Fin 11; Fin 12; Fin 13; Fin 14; Fin 15]].

(** The same row under labels, as a frame. *)
Definition frame_1x5 : Pandas.DataFrame :=
  Pandas.mk_df [LStr "p1"]
               [LStr "s1"; LStr "s2"; LStr "s3"; LStr "s4"; LStr "s5"]
               [[Fin 11; Fin 12; Fin 13; Fin 14; Fin 15]].

(** The five distances of the outlier example, and three equal distances
    0.1 with an array of three columns. *)
Definition distances64 : list Binary64.binary64 :=
  map Binary64.of_Z [1; 1; 1; 1; 10]%Z.

Definition tenths : list Binary64.binary64 :=
  repeat (Binary64.ratio 1 10) 3.

Definition array_1x3 : NumPy.ndarray :=
  NumPy.mk_ndarray (1, 3)%nat [[Fin 11; Fin 12; Fin 13]].

End Sample.

(** ** Vocabulary of the statements *)

(** [x < y] holds on cells when both are defined and ordered so. *)
Definition lt_cell (x y : float) : Prop :=
  exists a b, x = Fin a /\ y = Fin b /\ a < b.

(** The fraction of missing cells among the [n] cells of a row or column. *)
Definition missing_fraction (cells : list float) (n : nat) : float :=
  div (of_nat (Pandas.count_nan cells)) (of_nat n).

(** The test of [filter_probes] on one row of a frame of [num_samples]
    columns. *)
Definition probe_kept (num_samples : nat) (pct_cutoff sd_cutoff : float)
    (r : list float) : bool :=
  ltb (missing_fraction r num_samples) pct_cutoff
  && ltb (Pandas.nanstd r) sd_cutoff.


(** The stored form of a provenance code: its tags joined by the
    delimiter (Python's [delimiter.join(tags)]). *)
Fixpoint join (delimiter : ascii) (tags : list string) : string :=
  match tags with
  | [] => EmptyString
  | [tag] => tag
  | tag :: tags' => (tag ++ String delimiter (join delimiter tags'))%string
  end.

Definition has_char (c : ascii) (s : string) : Prop :=
  In c (list_ascii_of_string s).

(** Alphabetical order of two column names. *)
Definition ascending (a b : string) : Prop := String.leb a b = true.

(** The column that [df.loc[:, i]] finds for the integer [i], and what
    the minimiser returns for it. *)
Definition labelled_column (df : Pandas.DataFrame) (i : nat) : list float :=
  match Pandas.loc_column df (Z.of_nat i) with
  | Ok v => v
  | Raise _ => []
  end.

Definition labelled_result (minimize_scalar : Dry.minimizer) (df : Pandas.DataFrame)
    (offset_bounds : float * float) (i : nat) : Dry.OptimizeResult :=
  minimize_scalar
    (fun offset =>
       Dry.function_to_optimize offset (labelled_column df i)
                                (Pandas.reduce_rows Pandas.nanmedian df))
    offset_bounds.

(** pandas' default column labels: the positions 0, 1, ..., n-1. *)
Definition range_index (n : nat) : list label :=
  map (fun i => LInt (Z.of_nat i)) (seq 0 n).

(** An output array after [k] rounds of the loop: the first [k] entries
    are filled in, the others still hold the initial value. *)
Definition filled {A : Type} (f : nat -> A) (z : A) (k n : nat) : list A :=
  map f (seq 0 k) ++ repeat z (n - k).

(** What [minimize_scalar] returns for the sample at position [i]. *)
Definition sample_result (minimize_scalar : Dry.minimizer) (df : Pandas.DataFrame)
    (offset_bounds : float * float) (i : nat) : Dry.OptimizeResult :=
  minimize_scalar
    (fun offset =>
       Dry.function_to_optimize offset (Pandas.column i df)
                                (Pandas.reduce_rows Pandas.nanmedian df))
    offset_bounds.

(** The cells on which the row normalisation of [qc_gct2pw] meets neither
    a zero row maximum nor the limits of binary64: in data that is not log
    transformed a defined cell is positive; in log transformed data it lies
    in [-1022, 1024), where [np.exp2] is positive and finite. *)
Definition normalisable (log_transformed : bool) (x : float) : Prop :=
  match x with
  | NaN => True
  | Fin a => if log_transformed then -1022 <= a < 1024 else 0 < a
  end.

(** A binary64 value that is a zero or nan: what the deviation of equal
    distances can be. *)
Definition zero_or_nan (x : Binary64.binary64) : Prop :=
  match x with
  | SpecFloat.S754_zero _ | SpecFloat.S754_nan => True
  | _ => False
  end.

(** The string of [k] NUL characters, and strings that end with one. *)
Fixpoint nuls (k : nat) : string :=
  match k with
  | O => EmptyString
  | S k' => String Ascii.zero (nuls k')
  end.

Definition trailing_nul (s : string) : Prop :=
  exists s', s = (s' ++ String Ascii.zero EmptyString)%string.


(** * Properties *)

(** ** Cells and sums *)

(** Case analysis on the comparisons of explicit reals; the branches that
    contradict arithmetic are closed. *)
Ltac real_cases :=
  repeat (match goal with
          | |- context [Rle_dec ?a ?b] => destruct (Rle_dec a b); try lra
          | |- context [Rlt_dec ?a ?b] => destruct (Rlt_dec a b); try lra
          | |- context [Req_dec_T ?a ?b] => destruct (Req_dec_T a b); try lra
          | |- context [Rcase_abs ?a] => destruct (Rcase_abs a); try lra
          end; simpl).

Lemma ltb_lt_cell (x y : float) : ltb x y = true <-> lt_cell x y.
Proof.
  unfold lt_cell. split.
  - destruct x as [|a], y as [|b]; simpl; try discriminate.
    destruct (Rlt_dec a b); [|discriminate]. intros _. now exists a, b.
  - intros (a & b & -> & -> & Hab). simpl.
    destruct (Rlt_dec a b); [reflexivity | contradiction].
Qed.

Lemma ltb_nan_l (y : float) : ltb NaN y = false.
Proof. reflexivity. Qed.


Lemma ltb_irrefl (x : float) : ltb x x = false.
Proof.
  destruct x as [|a]; simpl; [reflexivity|].
  destruct (Rlt_dec a a); [lra | reflexivity].
Qed.

Lemma fold_add_nan (l : list float) : fold_left add l NaN = NaN.
Proof. induction l as [|y l IH]; simpl; [reflexivity | exact IH]. Qed.

Lemma fold_add_in_nan (l : list float) (acc : float) :
  In NaN l -> fold_left add l acc = NaN.
Proof.
  revert acc. induction l as [|y l IH]; intros acc Hin; [contradiction|].
  simpl. destruct Hin as [-> | Hin].
  - replace (add acc NaN) with NaN by now destruct acc.
    apply fold_add_nan.
  - now apply IH.
Qed.

Lemma fold_add_fin (rs : list R) (a : R) :
  fold_left add (map Fin rs) (Fin a) = Fin (a + Pandas.Rsum rs).
Proof.
  revert a. induction rs as [|r rs IH]; intro a; simpl.
  - f_equal. lra.
  - rewrite IH. f_equal. unfold Pandas.Rsum. simpl. lra.
Qed.

Lemma py_sum_fin (rs : list R) : NumPy.py_sum (map Fin rs) = Fin (Pandas.Rsum rs).
Proof.
  unfold NumPy.py_sum. rewrite fold_add_fin. f_equal. lra.
Qed.

Lemma dropna_fin (rs : list R) : Pandas.dropna (map Fin rs) = rs.
Proof. induction rs as [|r rs IH]; simpl; [reflexivity | now rewrite IH]. Qed.

(** ** Boolean masks *)

Lemma select_In {A : Type} (mask : list bool) (l : list A) (a : A) :
  In a (NumPy.select mask l) -> In a l.
Proof.
  revert l. induction mask as [|b mask IH]; intros [|a' l]; simpl; try tauto.
  destruct b; simpl; intros H; [destruct H as [H|H]|]; auto.
Qed.

Section Select.
Context {A : Type}.

Lemma select_map_mask (f : A -> bool) (l : list A) :
  NumPy.select (map f l) l = filter f l.
Proof.
  induction l as [|a l IH]; simpl; [reflexivity|].
  destruct (f a); now rewrite IH.
Qed.

Lemma select_map {B : Type} (g : A -> B) (mask : list bool) (l : list A) :
  NumPy.select mask (map g l) = map g (NumPy.select mask l).
Proof.
  revert l. induction mask as [|b mask IH]; intros [|a l]; simpl; try reflexivity.
  destruct b; simpl; now rewrite IH.
Qed.

Lemma select_length (mask : list bool) (l : list A) :
  length l = length mask ->
  length (NumPy.select mask l) = NumPy.count_true mask.
Proof.
  unfold NumPy.count_true.
  revert l. induction mask as [|b mask IH]; intros [|a l] Hlen; simpl in *;
    try reflexivity; try discriminate.
  destruct b; simpl; rewrite IH by congruence; reflexivity.
Qed.

Lemma select_length_le (mask : list bool) (l : list A) :
  (length (NumPy.select mask l) <= length l)%nat.
Proof.
  revert l. induction mask as [|b mask IH]; intros [|a l]; simpl; try lia.
  specialize (IH l). destruct b; simpl; lia.
Qed.

Lemma select_combine {B : Type} (mask : list bool) (l : list A) (l' : list B) :
  NumPy.select mask (combine l l') = combine (NumPy.select mask l) (NumPy.select mask l').
Proof.
  revert l l'. induction mask as [|b mask IH]; intros [|a l] [|a' l']; simpl;
    try reflexivity.
  - destruct b; simpl; [reflexivity | now destruct (NumPy.select mask l)].
  - destruct b; simpl; now rewrite IH.
Qed.

(** The selected entries are the entries at the selected positions. *)
Lemma select_positions_from (d : A) (mask : list bool) (l : list A) (s : nat) :
  length l = length mask ->
  NumPy.select mask l
  = map (fun j => nth (j - s) l d) (NumPy.select mask (seq s (length mask))).
Proof.
  revert l s. induction mask as [|b mask IH]; intros [|a l] s Hlen; simpl in *;
    try reflexivity; try discriminate.
  assert (Htail : NumPy.select mask l
            = map (fun j => nth (j - s) (a :: l) d)
                  (NumPy.select mask (seq (S s) (length mask)))).
  { rewrite (IH l (S s)) by congruence. apply map_ext_in.
    intros j Hj. apply select_In in Hj. apply in_seq in Hj.
    replace (j - s)%nat with (S (j - S s)) by lia. reflexivity. }
  destruct b; simpl.
  - rewrite Nat.sub_diag. f_equal. exact Htail.
  - exact Htail.
Qed.

Lemma select_positions (d : A) (mask : list bool) (l : list A) :
  length l = length mask ->
  NumPy.select mask l
  = map (fun j => nth j l d) (NumPy.select mask (seq 0 (length mask))).
Proof.
  intro Hlen. rewrite (select_positions_from d mask l 0 Hlen).
  apply map_ext. intro j. now rewrite Nat.sub_0_r.
Qed.

Lemma map_nth_seq (d : A) (l : list A) :
  map (fun i => nth i l d) (seq 0 (length l)) = l.
Proof.
  induction l as [|a l IH]; simpl; [reflexivity|].
  f_equal. rewrite <- seq_shift, map_map. exact IH.
Qed.
End Select.

(** Selecting cells in every row selects whole columns. *)
Lemma transpose_select (mask : list bool) (rs : list (list float)) :
  Forall (fun r => length r = length mask) rs ->
  NumPy.transpose (NumPy.count_true mask) (map (NumPy.select mask) rs)
  = NumPy.select mask (NumPy.transpose (length mask) rs).
Proof.
  intro Hwf. unfold NumPy.transpose.
  rewrite select_map.
  set (P := NumPy.select mask (seq 0 (length mask))).
  assert (HP : length P = NumPy.count_true mask).
  { apply select_length. apply length_seq. }
  rewrite <- HP.
  rewrite <- (map_nth_seq (length mask) P) at 2.
  rewrite map_map. apply map_ext_in. intros j' Hj'.
  rewrite map_map. apply map_ext_in. intros r Hr.
  rewrite Forall_forall in Hwf. specialize (Hwf r Hr).
  rewrite (select_positions NaN mask r Hwf). fold P.
  rewrite <- (nth_overflow r NaN (n := length mask)) at 1 by lia.
  apply (map_nth (fun j => nth j r NaN)).
Qed.

(** ** Filters *)

Lemma map2_map_same {A B C D : Type} (g : B -> C -> D) (f1 : A -> B) (f2 : A -> C)
    (l : list A) :
  Pandas.map2 g (map f1 l) (map f2 l) = map (fun a => g (f1 a) (f2 a)) l.
Proof. induction l as [|a l IH]; simpl; [reflexivity | now rewrite IH]. Qed.

Lemma select_combine_snd {A B : Type} (keep : B -> bool) (l : list A) (l' : list B) :
  combine (NumPy.select (map keep l') l) (NumPy.select (map keep l') l')
  = filter (fun p => keep (snd p)) (combine l l').
Proof.
  rewrite <- select_combine.
  revert l. induction l' as [|b l' IH]; intros [|a l]; simpl; try reflexivity.
  rewrite IH. reflexivity.
Qed.

Lemma transpose_length (n : nat) (rs : list (list float)) :
  length (NumPy.transpose n rs) = n.
Proof. unfold NumPy.transpose. now rewrite length_map, length_seq. Qed.

Lemma filter_samples_mask (df : Pandas.DataFrame) (cutoff : float) :
  NumPy.lt_scalar
    (Pandas.divide (Pandas.isnull_sum df) (fst (Pandas.shape df))) cutoff
  = map (fun col => ltb (missing_fraction col (length (Pandas.index df))) cutoff)
        (Pandas.cols df).
Proof.
  unfold NumPy.lt_scalar, Pandas.divide, Pandas.isnull_sum.
  now rewrite !map_map.
Qed.

(** C6.  [filter_samples] keeps exactly the columns whose fraction of
    missing cells, over the number of rows, is strictly below the cutoff,
    in their order; the number of rows is unchanged and the number of
    columns does not grow. *)
Theorem filter_samples_retains_below_cutoff
    (df : Pandas.DataFrame) (cutoff : float) (Hwf : Pandas.wf df) :
  let num_probes := length (Pandas.index df) in
  let out := Dry.filter_samples df cutoff in
  NumPy.cols out
    = filter (fun col => ltb (missing_fraction col num_probes) cutoff) (Pandas.cols df) /\
  (forall col, In col (NumPy.cols out) <->
     In col (Pandas.cols df) /\ lt_cell (missing_fraction col num_probes) cutoff) /\
  NumPy.wf out /\
  fst (NumPy.shape out) = num_probes /\
  (snd (NumPy.shape out) <= length (Pandas.columns df))%nat.
Proof.
  intros num_probes out. destruct Hwf as [Hrows Hcells].
  set (keep := fun col => ltb (missing_fraction col num_probes) cutoff).
  set (mask := map keep (Pandas.cols df)).
  assert (Hmask : length mask = length (Pandas.columns df)).
  { unfold mask, Pandas.cols. now rewrite length_map, transpose_length. }
  assert (Hout : out = NumPy.mk_ndarray
                   (num_probes, length (NumPy.select mask (Pandas.columns df)))
                   (map (NumPy.select mask) (Pandas.values df))).
  { unfold out, Dry.filter_samples. rewrite filter_samples_mask. reflexivity. }
  assert (Hsel : length (NumPy.select mask (Pandas.columns df)) = NumPy.count_true mask).
  { apply select_length. now rewrite Hmask. }
  assert (Hcols : NumPy.cols out = filter keep (Pandas.cols df)).
  { rewrite Hout. unfold NumPy.cols. simpl. rewrite Hsel.
    rewrite transpose_select.
    - rewrite Hmask. fold (Pandas.cols df). unfold mask. apply select_map_mask.
    - rewrite Hmask. exact Hcells. }
  split; [exact Hcols|]. split; [|split; [|split]].
  - intro col. rewrite Hcols, filter_In. unfold keep. now rewrite ltb_lt_cell.
  - rewrite Hout. split; simpl.
    + now rewrite length_map.
    + rewrite Forall_map. rewrite Forall_forall in Hcells |- *.
      intros r Hr. rewrite Hsel. apply select_length. rewrite Hmask. now apply Hcells.
  - now rewrite Hout.
  - rewrite Hout. simpl. apply select_length_le.
Qed.

Lemma filter_samples_retains_below_cutoff_witness :
  Pandas.wf Sample.frame /\
  NumPy.cols (Dry.filter_samples Sample.frame (Fin (1 / 2)))
    = filter (fun col => ltb (missing_fraction col 2) (Fin (1 / 2)))
             (Pandas.cols Sample.frame).
Proof.
  assert (Hwf : Pandas.wf Sample.frame).
  { split; [reflexivity | repeat constructor]. }
  split; [exact Hwf|].
  exact (proj1 (filter_samples_retains_below_cutoff Sample.frame (Fin (1 / 2)) Hwf)).
Defined.

Lemma filter_probes_mask (df : Pandas.DataFrame) (c1 c2 : float) :
  Pandas.map2 andb
    (NumPy.lt_scalar
       (Pandas.divide (Pandas.isnull_sum_axis1 df) (snd (Pandas.shape df))) c1)
    (NumPy.lt_scalar (Pandas.reduce_rows Pandas.nanstd df) c2)
  = map (fun r => ltb (missing_fraction r (length (Pandas.columns df))) c1
                  && ltb (Pandas.nanstd r) c2)
        (Pandas.values df).
Proof.
  unfold NumPy.lt_scalar, Pandas.divide, Pandas.isnull_sum_axis1, Pandas.reduce_rows.
  rewrite !map_map. apply map2_map_same.
Qed.

Lemma nanstd_all_missing (r : list float) :
  Pandas.dropna r = [] -> Pandas.nanstd r = NaN.
Proof.
  intro H. unfold Pandas.nanstd, Pandas.nanvar. now rewrite H.
Qed.

(** C3.  [filter_probes] keeps exactly the rows, with their labels and in
    their order, for which both the fraction of missing cells (over the
    number of columns) is strictly below its cutoff and the standard
    deviation of the defined cells is strictly below its cutoff; a row
    without any defined cell is dropped, and the function always returns. *)
Theorem filter_probes_conjunctive
    (df : Pandas.DataFrame) (probe_pct_cutoff probe_sd_cutoff : float)
    (Hwf : Pandas.wf df) :
  let num_samples := length (Pandas.columns df) in
  let keep := fun r =>
    ltb (missing_fraction r num_samples) probe_pct_cutoff
    && ltb (Pandas.nanstd r) probe_sd_cutoff in
  let out := Dry.filter_probes df probe_pct_cutoff probe_sd_cutoff in
  combine (Pandas.index out) (Pandas.values out)
    = filter (fun p => keep (snd p)) (combine (Pandas.index df) (Pandas.values df)) /\
  (forall r, keep r = true <->
     lt_cell (missing_fraction r num_samples) probe_pct_cutoff /\
     lt_cell (Pandas.nanstd r) probe_sd_cutoff) /\
  (forall id r, Pandas.dropna r = [] ->
     ~ In (id, r) (combine (Pandas.index out) (Pandas.values out))) /\
  Pandas.columns out = Pandas.columns df /\
  Pandas.wf out /\
  (length (Pandas.index out) <= length (Pandas.index df))%nat.
Proof.
  intros num_samples keep out. destruct Hwf as [Hrows Hcells].
  assert (Hout : out = Pandas.loc_rows df (map keep (Pandas.values df))).
  { unfold out, Dry.filter_probes. now rewrite filter_probes_mask. }
  assert (Hpairs : combine (Pandas.index out) (Pandas.values out)
            = filter (fun p => keep (snd p))
                     (combine (Pandas.index df) (Pandas.values df))).
  { rewrite Hout. simpl. apply select_combine_snd. }
  assert (Hkeep : forall r, keep r = true <->
            lt_cell (missing_fraction r num_samples) probe_pct_cutoff /\
            lt_cell (Pandas.nanstd r) probe_sd_cutoff).
  { intro r. unfold keep. now rewrite andb_true_iff, !ltb_lt_cell. }
  split; [exact Hpairs|]. split; [exact Hkeep|]. split; [|split; [|split]].
  - intros id r Hr Hin. rewrite Hpairs in Hin. apply filter_In in Hin.
    destruct Hin as [_ Hk]. simpl in Hk. apply Hkeep in Hk.
    destruct Hk as [_ (a & b & Hsd & _)].
    rewrite (nanstd_all_missing r Hr) in Hsd. discriminate.
  - now rewrite Hout.
  - rewrite Hout. split; simpl.
    + rewrite !select_length; [reflexivity | | ]; rewrite length_map; congruence.
    + rewrite Forall_forall in Hcells |- *. intros r Hr.
      apply Hcells. now apply select_In in Hr.
  - rewrite Hout. simpl. apply select_length_le.
Qed.

Lemma filter_probes_conjunctive_witness :
  Pandas.wf Sample.frame /\
  combine (Pandas.index (Dry.filter_probes Sample.frame (Fin (3 / 4)) (Fin 1)))
          (Pandas.values (Dry.filter_probes Sample.frame (Fin (3 / 4)) (Fin 1)))
    = filter (fun p => ltb (missing_fraction (snd p) 2) (Fin (3 / 4))
                       && ltb (Pandas.nanstd (snd p)) (Fin 1))
             (combine (Pandas.index Sample.frame) (Pandas.values Sample.frame)).
Proof.
  assert (Hwf : Pandas.wf Sample.frame).
  { split; [reflexivity | repeat constructor]. }
  split; [exact Hwf|].
  exact (proj1 (filter_probes_conjunctive Sample.frame (Fin (3 / 4)) (Fin 1) Hwf)).
Defined.

(** ** Selection of columns *)


Lemma index_columns_cols (a : NumPy.ndarray) (mask : list bool) :
  NumPy.wf a -> length mask = snd (NumPy.shape a) ->
  exists out,
    NumPy.index_columns a mask = Ok out /\
    NumPy.cols out = NumPy.select mask (NumPy.cols a) /\
    NumPy.wf out /\
    fst (NumPy.shape out) = fst (NumPy.shape a) /\
    snd (NumPy.shape out) = NumPy.count_true mask.
Proof.
  intros [Hrows Hcells] Hlen. unfold NumPy.index_columns.
  rewrite (proj2 (Nat.eqb_eq _ _) Hlen).
  eexists. split; [reflexivity|]. repeat split; simpl.
  - unfold NumPy.cols. simpl. rewrite transpose_select.
    + now rewrite Hlen.
    + now rewrite Hlen.
  - now rewrite length_map.
  - rewrite Forall_map. rewrite Forall_forall in Hcells |- *.
    intros r Hr. apply select_length. rewrite Hlen. now apply Hcells.
Qed.

Lemma select_map_fst {A B : Type} (keep : A -> bool) (l : list A) (l' : list B) :
  length l = length l' ->
  NumPy.select (map keep l) l'
  = map snd (filter (fun p => keep (fst p)) (combine l l')).
Proof.
  revert l'. induction l as [|a l IH]; intros [|b l'] Hlen; simpl in *;
    try reflexivity; try discriminate.
  destruct (keep a); simpl; rewrite IH by congruence; reflexivity.
Qed.

Lemma count_true_le (mask : list bool) : (NumPy.count_true mask <= length mask)%nat.
Proof. unfold NumPy.count_true. apply filter_length_le. Qed.

Lemma select_all_false {A : Type} (n : nat) (l : list A) :
  NumPy.select (repeat false n) l = [].
Proof.
  revert l. induction n as [|n IH]; intros [|a l]; simpl; auto.
Qed.

Lemma map_all_false {A : Type} (f : A -> bool) (l : list A) :
  (forall x, In x l -> f x = false) -> map f l = repeat false (length l).
Proof.
  induction l as [|a l IH]; intro H; simpl; [reflexivity|].
  rewrite (H a) by now left. f_equal. apply IH. intros x Hx. apply H. now right.
Qed.

Lemma count_true_all_false (n : nat) : NumPy.count_true (repeat false n) = 0%nat.
Proof.
  unfold NumPy.count_true. induction n as [|n IH]; simpl; auto.
Qed.

(** ** Outlier removal in binary64 *)

Lemma zero_or_nan_add (x y : Binary64.binary64) :
  zero_or_nan x -> zero_or_nan y -> zero_or_nan (Binary64.add x y).
Proof.
  destruct x as [sx|sx| |sx mx ex], y as [sy|sy| |sy my ey];
    simpl; try contradiction; intros _ _; try exact I.
  now destruct sx, sy.
Qed.

Lemma zero_or_nan_sub_self (d : Binary64.binary64) :
  zero_or_nan (Binary64.sub d d).
Proof.
  destruct d as [s|s| |s m e]; simpl.
  - now destruct s.
  - now destruct s.
  - exact I.
  - rewrite Z.sub_diag. exact I.
Qed.

Lemma zero_or_nan_mul (x y : Binary64.binary64) :
  zero_or_nan x -> zero_or_nan (Binary64.mul x y).
Proof.
  destruct x as [sx|sx| |sx mx ex], y as [sy|sy| |sy my ey];
    simpl; try contradiction; intros _; exact I.
Qed.

Lemma zero_or_nan_div (x y : Binary64.binary64) :
  zero_or_nan x -> zero_or_nan (Binary64.div x y).
Proof.
  destruct x as [sx|sx| |sx mx ex], y as [sy|sy| |sy my ey];
    simpl; try contradiction; intros _; exact I.
Qed.

Lemma zero_or_nan_sqrt (x : Binary64.binary64) :
  zero_or_nan x -> zero_or_nan (Binary64.sqrt x).
Proof.
  destruct x as [sx|sx| |sx mx ex]; simpl; try contradiction; intros _; exact I.
Qed.

(** Adding a zero or nan to [d] gives nothing above [d]. *)
Lemma ltb_add_zero_or_nan (d s : Binary64.binary64) :
  zero_or_nan s -> Binary64.ltb d (Binary64.add d s) = false.
Proof.
  destruct s as [ss|ss| |ss ms es]; simpl; try contradiction; intros _.
  - destruct d as [sd|sd| |sd md ed]; simpl.
    + now destruct sd, ss.
    + now destruct sd.
    + reflexivity.
    + unfold Binary64.ltb, SpecFloat.SFltb. simpl.
      destruct sd; rewrite Z.compare_refl, Pos.compare_cont_refl; reflexivity.
  - now destruct d.
Qed.

Lemma Forall_firstn_skipn {A : Type} (P : A -> Prop) (n : nat) (l : list A) :
  Forall P l -> Forall P (firstn n l) /\ Forall P (skipn n l).
Proof.
  intro H. rewrite <- (firstn_skipn n l) in H. now apply Forall_app in H.
Qed.

Lemma zero_or_nan_fold (a : list Binary64.binary64) (z : Binary64.binary64) :
  Forall zero_or_nan a -> zero_or_nan z ->
  zero_or_nan (fold_left Binary64.add a z).
Proof.
  revert z. induction a as [|x a IH]; intros z Ha Hz; simpl; [exact Hz|].
  inversion Ha as [|? ? Hx Ha']; subst.
  apply IH; [exact Ha' | now apply zero_or_nan_add].
Qed.

Lemma zero_or_nan_map2 (r a : list Binary64.binary64) :
  Forall zero_or_nan r -> Forall zero_or_nan a ->
  Forall zero_or_nan (Pandas.map2 Binary64.add r a).
Proof.
  revert a. induction r as [|x r IH]; intros [|y a] Hr Ha; simpl;
    try constructor.
  - inversion Hr; inversion Ha; subst. now apply zero_or_nan_add.
  - inversion Hr; inversion Ha; subst. now apply IH.
Qed.

Lemma zero_or_nan_accumulate (blocks : nat) (r a : list Binary64.binary64) :
  Forall zero_or_nan r -> Forall zero_or_nan a ->
  Forall zero_or_nan (fst (Binary64.accumulate blocks r a)) /\
  Forall zero_or_nan (snd (Binary64.accumulate blocks r a)).
Proof.
  revert r a. induction blocks as [|blocks IH]; intros r a Hr Ha; simpl.
  - now split.
  - destruct (Forall_firstn_skipn zero_or_nan 8 a Ha) as [Hf Hs].
    apply IH; [now apply zero_or_nan_map2 | exact Hs].
Qed.

Lemma zero_or_nan_combine8 (r : list Binary64.binary64) :
  Forall zero_or_nan r -> zero_or_nan (Binary64.combine8 r).
Proof.
  intro Hr.
  assert (Hnth : forall i, zero_or_nan (nth i r Binary64.zero)).
  { intro i. destruct (Nat.lt_ge_cases i (length r)) as [Hi | Hi].
    - rewrite Forall_forall in Hr. apply Hr. now apply nth_In.
    - rewrite nth_overflow by exact Hi. exact I. }
  unfold Binary64.combine8. repeat apply zero_or_nan_add; apply Hnth.
Qed.

Lemma zero_or_nan_pairwise_sum (fuel : nat) (a : list Binary64.binary64) :
  Forall zero_or_nan a -> zero_or_nan (Binary64.pairwise_sum fuel a).
Proof.
  revert a. induction fuel as [|fuel IH]; intros a Ha; simpl;
    destruct (Nat.ltb (length a) 8);
    try (apply zero_or_nan_fold; [exact Ha | exact I]);
    destruct (Nat.leb (length a) 128).
  - destruct (Forall_firstn_skipn zero_or_nan 8 a Ha) as [Hf Hs].
    destruct (zero_or_nan_accumulate (length a / 8 - 1) _ _ Hf Hs) as [Hr Hrest].
    destruct (Binary64.accumulate _ _ _) as [r rest]. simpl in Hr, Hrest.
    apply zero_or_nan_fold; [exact Hrest | now apply zero_or_nan_combine8].
  - exact I.
  - destruct (Forall_firstn_skipn zero_or_nan 8 a Ha) as [Hf Hs].
    destruct (zero_or_nan_accumulate (length a / 8 - 1) _ _ Hf Hs) as [Hr Hrest].
    destruct (Binary64.accumulate _ _ _) as [r rest]. simpl in Hr, Hrest.
    apply zero_or_nan_fold; [exact Hrest | now apply zero_or_nan_combine8].
  - destruct (Forall_firstn_skipn zero_or_nan
                (length a / 2 - (length a / 2) mod 8) a Ha) as [Hf Hs].
    apply zero_or_nan_add; now apply IH.
Qed.

Lemma zero_or_nan_sum (a : list Binary64.binary64) :
  Forall zero_or_nan a -> zero_or_nan (Binary64.sum a).
Proof.
  intro Ha. unfold Binary64.sum.
  apply zero_or_nan_add; [exact I | now apply zero_or_nan_pairwise_sum].
Qed.

(** Distances that all equal their computed mean have a deviation that is
    a zero (nan when there is no distance). *)
Lemma std_of_equal_distances (distances : list Binary64.binary64) :
  Forall (fun x => x = Binary64.mean distances) distances ->
  zero_or_nan (Binary64.std distances).
Proof.
  intro H. unfold Binary64.std.
  apply zero_or_nan_sqrt, zero_or_nan_div, zero_or_nan_sum.
  rewrite !Forall_map. rewrite Forall_forall in H |- *.
  intros x Hx. rewrite (H x Hx).
  apply zero_or_nan_mul, zero_or_nan_sub_self.
Qed.

Lemma lt_scalar_length (s : list Binary64.binary64) (cutoff : Binary64.binary64) :
  length (Binary64.lt_scalar s cutoff) = length s.
Proof. unfold Binary64.lt_scalar. apply length_map. Qed.

(** The splitting of [pairwise_sum] ends within the length of the array:
    any larger bound on its depth gives the same sum. *)
Lemma pairwise_sum_fuel (fuel fuel' : nat) (a : list Binary64.binary64) :
  (length a <= fuel)%nat -> (length a <= fuel')%nat ->
  Binary64.pairwise_sum fuel a = Binary64.pairwise_sum fuel' a.
Proof.
  revert fuel' a. induction fuel as [|fuel IH]; intros fuel' a H H'.
  - destruct a; [| simpl in H; lia]. now destruct fuel'.
  - destruct fuel' as [|fuel'].
    + destruct a; [reflexivity | simpl in H'; lia].
    + cbn [Binary64.pairwise_sum].
      destruct (Nat.ltb (length a) 8); [reflexivity|].
      destruct (Nat.leb (length a) 128) eqn:E; [reflexivity|].
      apply Nat.leb_gt in E.
      pose proof (Nat.mod_upper_bound (length a / 2) 8 ltac:(discriminate)) as Hm.
      assert (Hlo : (64 <= length a / 2)%nat)
        by (apply Nat.div_le_lower_bound; lia).
      assert (Hhi : (length a / 2 < length a)%nat)
        by (apply Nat.div_lt; lia).
      f_equal; apply IH; rewrite ?length_firstn, ?length_skipn; lia.
Qed.

(** C4.  On a pandas frame, which is what the docstring of
    [remove_sample_outliers] names as its input and what
    [optimize_sample_balance] returns, the call raises whatever the
    distances and the multiplier are, and no sample is retained or
    removed.  On a bare array it does what the claim says: it keeps
    exactly the columns whose distance is strictly below the cutoff, the
    mean of the distances plus their deviation times the multiplier; for
    the distances [1,1,1,1,10] with multiplier 1 the computed mean is 2.8,
    the deviation 3.6, the cutoff 6.4, and the column of distance 10, and
    only it, is removed. *)
Theorem remove_sample_outliers_raises_on_frame :
  (forall (df : Pandas.DataFrame) (distances : list Binary64.binary64)
          (k : Binary64.binary64),
      Binary64.remove_sample_outliers (Binary64.Frame df) distances k
      = Raise TypeError) /\
  (forall (a : NumPy.ndarray) (distances : list Binary64.binary64)
          (k : Binary64.binary64),
      NumPy.wf a -> length distances = snd (NumPy.shape a) ->
      exists out,
        Binary64.remove_sample_outliers (Binary64.Array a) distances k
        = Ok (Binary64.Array out) /\
        NumPy.cols out
          = map snd
              (filter (fun p => Binary64.ltb (fst p)
                                  (Binary64.add (Binary64.mean distances)
                                     (Binary64.mul (Binary64.std distances) k)))
                      (combine distances (NumPy.cols a))) /\
        NumPy.wf out /\
        fst (NumPy.shape out) = fst (NumPy.shape a) /\
        (snd (NumPy.shape out) <= snd (NumPy.shape a))%nat) /\
  Binary64.mean Sample.distances64 = Binary64.ratio 28 10 /\
  Binary64.std Sample.distances64 = Binary64.ratio 36 10 /\
  Binary64.outlier_cutoff Sample.distances64 (Binary64.of_Z 1)
    = Binary64.ratio 64 10 /\
  Binary64.remove_sample_outliers (Binary64.Array Sample.array_1x5)
      Sample.distances64 (Binary64.of_Z 1)
    = Ok (Binary64.Array
            (NumPy.mk_ndarray (1, 4)%nat [[Fin 11; Fin 12; Fin 13; Fin 14]])) /\
  Binary64.remove_sample_outliers (Binary64.Frame Sample.frame_1x5)
      Sample.distances64 (Binary64.of_Z 1)
    = Raise TypeError.
Proof.
  split; [reflexivity|]. split; [| split; [| split; [| split; [| split]]]].
  - intros a distances k Hwf Hlen.
    unfold Binary64.remove_sample_outliers, Binary64.getitem_columns,
      Binary64.outlier_cutoff.
    set (cutoff := Binary64.add _ _).
    destruct (index_columns_cols a (Binary64.lt_scalar distances cutoff) Hwf)
      as (out & Hr & Hc & Hw & Hs1 & Hs2).
    { now rewrite lt_scalar_length. }
    exists out. rewrite Hr. split; [reflexivity|].
    split; [| split; [exact Hw | split; [exact Hs1|]]].
    + rewrite Hc. unfold Binary64.lt_scalar.
      apply (select_map_fst (fun d => Binary64.ltb d cutoff)).
      unfold NumPy.cols. now rewrite transpose_length.
    + rewrite Hs2, <- Hlen, <- (lt_scalar_length distances cutoff).
      apply count_true_le.
  - vm_compute. reflexivity.
  - vm_compute. reflexivity.
  - vm_compute. reflexivity.
  - assert (Hmask : Binary64.lt_scalar Sample.distances64
                      (Binary64.outlier_cutoff Sample.distances64 (Binary64.of_Z 1))
                    = [true; true; true; true; false])
      by (vm_compute; reflexivity).
    unfold Binary64.remove_sample_outliers. cbv zeta. rewrite Hmask. reflexivity.
  - reflexivity.
Qed.

Lemma remove_sample_outliers_raises_on_frame_witness :
  NumPy.wf Sample.array_1x5 /\
  exists out,
    Binary64.remove_sample_outliers (Binary64.Array Sample.array_1x5)
        Sample.distances64 (Binary64.of_Z 1)
      = Ok (Binary64.Array out) /\
    NumPy.wf out /\
    fst (NumPy.shape out) = 1%nat.
Proof.
  assert (Hwf : NumPy.wf Sample.array_1x5).
  { split; [reflexivity | repeat constructor]. }
  split; [exact Hwf|].
  destruct (proj1 (proj2 remove_sample_outliers_raises_on_frame)
              Sample.array_1x5 Sample.distances64 (Binary64.of_Z 1) Hwf eq_refl)
    as (out & Hr & _ & Hw & Hs & _).
  exists out. split; [exact Hr|]. split; [exact Hw | exact Hs].
Defined.

(** C10 as stated fails.  Three distances all equal to 0.1, with the
    multiplier 2: the computed mean of the three is 0.10000000000000002,
    the next binary64 value above 0.1, the computed deviation is not zero,
    every distance is strictly below the cutoff and every column of the
    array is kept. *)
Lemma remove_sample_outliers_equal_distances_counterexample :
  Forall (fun d => d = Binary64.ratio 1 10) Sample.tenths /\
  Binary64.ltb (Binary64.ratio 1 10) (Binary64.mean Sample.tenths) = true /\
  Binary64.ltb Binary64.zero (Binary64.std Sample.tenths) = true /\
  Binary64.lt_scalar Sample.tenths
    (Binary64.outlier_cutoff Sample.tenths (Binary64.of_Z 2))
    = [true; true; true] /\
  Binary64.remove_sample_outliers (Binary64.Array Sample.array_1x3)
      Sample.tenths (Binary64.of_Z 2)
    = Ok (Binary64.Array Sample.array_1x3).
Proof.
  assert (Hmask : Binary64.lt_scalar Sample.tenths
                    (Binary64.outlier_cutoff Sample.tenths (Binary64.of_Z 2))
                  = [true; true; true])
    by (vm_compute; reflexivity).
  split; [repeat constructor|].
  split; [vm_compute; reflexivity|].
  split; [vm_compute; reflexivity|].
  split; [exact Hmask|].
  unfold Binary64.remove_sample_outliers. cbv zeta. rewrite Hmask. reflexivity.
Qed.

(** C10, amended.  When every distance equals the same value and the mean
    NumPy computes for them is that value too, the computed deviation is a
    zero (nan when there is no distance), no distance is strictly below
    the cutoff, whatever the multiplier is, and [remove_sample_outliers]
    removes every column of an array. *)
Theorem remove_sample_outliers_equal_distances_exact_mean
    (a : NumPy.ndarray) (distances : list Binary64.binary64)
    (d k : Binary64.binary64)
    (Hequal : Forall (fun x => x = d) distances)
    (Hmean : Binary64.mean distances = d)
    (Hlen : length distances = snd (NumPy.shape a)) :
  zero_or_nan (Binary64.std distances) /\
  Forall (fun x => Binary64.ltb x (Binary64.outlier_cutoff distances k) = false)
         distances /\
  Binary64.remove_sample_outliers (Binary64.Array a) distances k
  = Ok (Binary64.Array
          (NumPy.mk_ndarray (fst (NumPy.shape a), 0%nat)
                            (map (fun _ => []) (NumPy.rows a)))).
Proof.
  assert (Hstd : zero_or_nan (Binary64.std distances)).
  { apply std_of_equal_distances. rewrite Hmean. exact Hequal. }
  assert (Hnone : Forall (fun x => Binary64.ltb x
                                     (Binary64.outlier_cutoff distances k) = false)
                         distances).
  { rewrite Forall_forall in Hequal |- *. intros x Hx.
    rewrite (Hequal x Hx). unfold Binary64.outlier_cutoff. rewrite Hmean.
    apply ltb_add_zero_or_nan. now apply zero_or_nan_mul. }
  split; [exact Hstd|]. split; [exact Hnone|].
  unfold Binary64.remove_sample_outliers, Binary64.getitem_columns,
    Binary64.lt_scalar, NumPy.index_columns. cbv zeta.
  rewrite length_map, Hlen, Nat.eqb_refl.
  rewrite (map_all_false _ distances) by (now apply Forall_forall).
  rewrite count_true_all_false. simpl.
  do 3 f_equal. apply map_ext. intro r. apply select_all_false.
Qed.

Lemma remove_sample_outliers_equal_distances_exact_mean_witness :
  Binary64.mean (repeat (Binary64.of_Z 1) 5) = Binary64.of_Z 1 /\
  Binary64.remove_sample_outliers (Binary64.Array Sample.array_1x5)
      (repeat (Binary64.of_Z 1) 5) (Binary64.of_Z 2)
    = Ok (Binary64.Array (NumPy.mk_ndarray (1, 0)%nat [[]])).
Proof.
  assert (Hmean : Binary64.mean (repeat (Binary64.of_Z 1) 5) = Binary64.of_Z 1)
    by (vm_compute; reflexivity).
  split; [exact Hmean|].
  refine (proj2 (proj2 (remove_sample_outliers_equal_distances_exact_mean
                          Sample.array_1x5 (repeat (Binary64.of_Z 1) 5)
                          (Binary64.of_Z 1) (Binary64.of_Z 2) _ Hmean eq_refl))).
  repeat constructor.
Defined.

(** C5 at a labelled frame.  [filter_samples] returns the bare cells of the
    kept columns: two frames with the same cells and different labels give
    the same result, so the result does not carry the identifiers of what
    was retained. *)
Theorem filter_samples_forgets_labels :
  Dry.filter_samples Sample.frame (Fin (1 / 2))
    = NumPy.mk_ndarray (2, 1)%nat [[Fin 1]; [Fin 2]] /\
  Dry.filter_samples Sample.frame_relabelled (Fin (1 / 2))
    = Dry.filter_samples Sample.frame (Fin (1 / 2)) /\
  Pandas.columns Sample.frame <> Pandas.columns Sample.frame_relabelled /\
  Pandas.index Sample.frame <> Pandas.index Sample.frame_relabelled.
Proof.
  assert (Hmask : forall df, Pandas.cols df = [[Fin 1; Fin 2]; [NaN; NaN]] ->
            map (fun col => ltb (missing_fraction col 2) (Fin (1 / 2))) (Pandas.cols df)
            = [true; false]).
  { intros df ->. unfold missing_fraction. simpl.
    repeat (destruct (Req_dec_T _ _) as [?|?]; try lra; simpl).
    repeat (destruct (Rlt_dec _ _) as [?|?]; try lra; simpl).
    reflexivity. }
  assert (Heval : forall df,
            Pandas.cols df = [[Fin 1; Fin 2]; [NaN; NaN]] ->
            length (Pandas.index df) = 2%nat ->
            length (Pandas.columns df) = 2%nat ->
            Pandas.values df = [[Fin 1; NaN]; [Fin 2; NaN]] ->
            Dry.filter_samples df (Fin (1 / 2))
            = NumPy.mk_ndarray (2, 1)%nat [[Fin 1]; [Fin 2]]).
  { intros df Hc Hi Hl Hv.
    unfold Dry.filter_samples, Pandas.to_values, Pandas.loc_columns, Pandas.shape.
    rewrite filter_samples_mask, Hi, (Hmask df Hc), Hv. simpl.
    destruct (Pandas.columns df) as [|c1 [|c2 [|c3 cs]]]; try discriminate.
    simpl. now rewrite Hi. }
  split; [|split; [|split; discriminate]].
  - now apply Heval.
  - now rewrite !Heval.
Qed.

(** ** The optimisation loop *)

Lemma position_range_from (i s n : nat) :
  (s <= i < s + n)%nat ->
  Pandas.position (LInt (Z.of_nat i)) (map (fun j => LInt (Z.of_nat j)) (seq s n))
  = Some (i - s)%nat.
Proof.
  revert s. induction n as [|n IH]; intros s H; [lia|].
  simpl. destruct (Z.eqb_spec (Z.of_nat i) (Z.of_nat s)) as [E|E].
  - apply Nat2Z.inj in E. subst. now rewrite Nat.sub_diag.
  - assert (i <> s) by congruence.
    rewrite IH by lia. simpl. f_equal. lia.
Qed.

Lemma loc_column_range (df : Pandas.DataFrame) (n i : nat) :
  Pandas.columns df = range_index n -> (i < n)%nat ->
  Pandas.loc_column df (Z.of_nat i) = Ok (Pandas.column i df).
Proof.
  intros Hc Hi. unfold Pandas.loc_column. rewrite Hc. unfold range_index.
  rewrite position_range_from by lia. now rewrite Nat.sub_0_r.
Qed.

Lemma set_item_at {A : Type} (pre post : list A) (a v : A) :
  Dry.set_item (pre ++ a :: post) (length pre) v = Ok (pre ++ v :: post).
Proof.
  induction pre as [|b pre IH]; simpl; [reflexivity|]. now rewrite IH.
Qed.

Lemma set_item_filled {A : Type} (f : nat -> A) (z : A) (k n : nat) :
  (k < n)%nat ->
  Dry.set_item (filled f z k n) k (f k) = Ok (filled f z (S k) n).
Proof.
  intro Hk. unfold filled.
  replace (n - k)%nat with (S (n - S k)) by lia. simpl repeat.
  pose proof (set_item_at (map f (seq 0 k)) (repeat z (n - S k)) z (f k)) as Hset.
  rewrite length_map, length_seq in Hset. rewrite Hset.
  rewrite seq_S, map_app. simpl. now rewrite <- app_assoc.
Qed.

Lemma filled_0 {A : Type} (f : nat -> A) (z : A) (n : nat) :
  filled f z 0 n = repeat z n.
Proof. unfold filled. simpl. now rewrite Nat.sub_0_r. Qed.

Lemma filled_all {A : Type} (f : nat -> A) (z : A) (n : nat) :
  filled f z n n = map f (seq 0 n).
Proof. unfold filled. rewrite Nat.sub_diag. simpl. apply app_nil_r. Qed.

Section Loop.
Variable minimize_scalar : Dry.minimizer.
Variable df : Pandas.DataFrame.
Variable offset_bounds : float * float.
Variable n : nat.
Hypothesis Hcolumns : Pandas.columns df = range_index n.

Let result := sample_result minimize_scalar df offset_bounds.
Let unoptimized (i : nat) : float :=
  Dry.function_to_optimize (Fin 0) (Pandas.column i df)
                           (Pandas.reduce_rows Pandas.nanmedian df).

(** The four arrays after [k] rounds. *)
Let state (k : nat) : Dry.outputs :=
  Dry.mk_outputs (filled (fun i => Dry.x (result i)) (Fin 0) k n)
                 (filled (fun i => Dry.fun_ (result i)) (Fin 0) k n)
                 (filled unoptimized (Fin 0) k n)
                 (filled (fun i => Dry.success (result i)) false k n).

Lemma loop_body_step (k : nat) :
  (k < n)%nat ->
  Dry.loop_body minimize_scalar df (Pandas.reduce_rows Pandas.nanmedian df)
                offset_bounds k (state k)
  = Ok (state (S k)).
Proof.
  intro Hk. unfold Dry.loop_body.
  rewrite (loc_column_range df n k Hcolumns Hk). simpl.
  change (Dry.function_to_optimize (Fin 0) (Pandas.column k df)
            (Pandas.reduce_rows Pandas.nanmedian df)) with (unoptimized k).
  change (minimize_scalar _ offset_bounds) with (result k).
  rewrite (set_item_filled unoptimized (Fin 0) k n Hk). simpl.
  rewrite (set_item_filled (fun i => Dry.x (result i)) (Fin 0) k n Hk). simpl.
  rewrite (set_item_filled (fun i => Dry.fun_ (result i)) (Fin 0) k n Hk). simpl.
  rewrite (set_item_filled (fun i => Dry.success (result i)) false k n Hk). simpl.
  reflexivity.
Qed.

Lemma loop_rounds (m k : nat) :
  (k + m = n)%nat ->
  Dry.for_each
    (Dry.loop_body minimize_scalar df (Pandas.reduce_rows Pandas.nanmedian df)
                   offset_bounds)
    (seq k m) (state k)
  = Ok (state n).
Proof.
  revert k. induction m as [|m IH]; intros k Hkm; simpl.
  - replace k with n by lia. reflexivity.
  - rewrite loop_body_step by lia. simpl. apply IH. lia.
Qed.

Lemma optimize_sample_balance_eval :
  Dry.optimize_sample_balance minimize_scalar df offset_bounds
  = Ok ((Pandas.add_columns df (map (fun i => Dry.x (result i)) (seq 0 n)),
         map (fun i => Dry.fun_ (result i)) (seq 0 n)),
        if forallb (fun b => b) (map (fun i => Dry.success (result i)) (seq 0 n))
        then []
        else [Pandas.loc_columns df
                (map (fun i => negb (Dry.success (result i))) (seq 0 n))]).
Proof.
  unfold Dry.optimize_sample_balance, Pandas.shape. simpl snd.
  assert (Hn : length (Pandas.columns df) = n).
  { rewrite Hcolumns. unfold range_index. now rewrite length_map, length_seq. }
  rewrite Hn.
  pose proof (loop_rounds n 0 eq_refl) as Hloop.
  unfold state in Hloop at 1. rewrite !filled_0 in Hloop.
  rewrite Hloop. unfold state. rewrite !filled_all. simpl.
  rewrite map_map.
  destruct (forallb _ _); reflexivity.
Qed.
End Loop.

(** C2 (as the code has it).  On a frame whose columns carry the default
    labels 0 .. n-1, [optimize_sample_balance] returns, whatever the
    minimiser reports, a pair: the frame with every sample shifted by its
    offset and one distance per sample.  Samples that did not converge are
    printed, and only printed: the call does not raise, and a minimiser
    that finds the same offsets and distances with other convergence
    flags leads to the same returned pair. *)
Theorem optimize_sample_balance_returns_pair
    (minimize_scalar : Dry.minimizer) (df : Pandas.DataFrame)
    (offset_bounds : float * float) (n : nat)
    (Hcolumns : Pandas.columns df = range_index n) :
  let result := sample_result minimize_scalar df offset_bounds in
  exists df_with_offsets distances printed,
    Dry.optimize_sample_balance minimize_scalar df offset_bounds
      = Ok ((df_with_offsets, distances), printed) /\
    df_with_offsets
      = Pandas.add_columns df (map (fun i => Dry.x (result i)) (seq 0 n)) /\
    distances = map (fun i => Dry.fun_ (result i)) (seq 0 n) /\
    length distances = n /\
    Pandas.index df_with_offsets = Pandas.index df /\
    Pandas.columns df_with_offsets = Pandas.columns df /\
    (printed = [] <-> forall i, (i < n)%nat -> Dry.success (result i) = true) /\
    (printed <> [] ->
     printed = [Pandas.loc_columns df
                  (map (fun i => negb (Dry.success (result i))) (seq 0 n))]) /\
    (forall other : Dry.minimizer,
        (forall f b, Dry.x (other f b) = Dry.x (minimize_scalar f b) /\
                     Dry.fun_ (other f b) = Dry.fun_ (minimize_scalar f b)) ->
        exists printed',
          Dry.optimize_sample_balance other df offset_bounds
            = Ok ((df_with_offsets, distances), printed')).
Proof.
  intro result.
  pose proof (optimize_sample_balance_eval minimize_scalar df offset_bounds n Hcolumns)
    as Hrun.
  cbv zeta in Hrun. fold result in Hrun.
  do 3 eexists. split; [exact Hrun|].
  split; [reflexivity|]. split; [reflexivity|].
  split; [now rewrite length_map, length_seq|].
  split; [reflexivity|]. split; [reflexivity|].
  split; [|split].
  - destruct (forallb _ _) eqn:Hall.
    + split; [|reflexivity]. intros _ i Hi.
      rewrite forallb_forall in Hall. apply Hall.
      apply in_map_iff. exists i. split; [reflexivity|]. apply in_seq. lia.
    + split; [discriminate|]. intro Hsucc.
      assert (Htrue : forallb (fun b => b)
                        (map (fun i => Dry.success (result i)) (seq 0 n)) = true).
      { apply forallb_forall. intros b Hb. apply in_map_iff in Hb.
        destruct Hb as (i & <- & Hi). apply in_seq in Hi. apply Hsucc. lia. }
      congruence.
  - destruct (forallb _ _); [contradiction | reflexivity].
  - intros other Hsame.
    pose proof (optimize_sample_balance_eval other df offset_bounds n Hcolumns)
      as Hother.
    cbv zeta in Hother. eexists. rewrite Hother. do 3 f_equal.
    + f_equal. apply map_ext. intro i. unfold result, sample_result. apply Hsame.
    + apply map_ext. intro i. unfold result, sample_result. apply Hsame.
Qed.

Lemma optimize_sample_balance_returns_pair_witness :
  Pandas.columns Sample.frame_1x1 = range_index 1 /\
  exists df_with_offsets distances printed,
    Dry.optimize_sample_balance Sample.stall Sample.frame_1x1 Dry.default_offset_bounds
      = Ok ((df_with_offsets, distances), printed) /\
    length distances = 1%nat.
Proof.
  split; [reflexivity|].
  destruct (optimize_sample_balance_returns_pair
              Sample.stall Sample.frame_1x1 Dry.default_offset_bounds 1 eq_refl)
    as (d & ds & pr & Hrun & _ & _ & Hlen & _).
  exists d, ds, pr. split; [exact Hrun | exact Hlen].
Defined.

(** C2 as stated fails.  On a frame with string column labels the call
    raises KeyError at the first sample; and on the one-sample frame the
    call returns the same pair whether the sample converged or not, so the
    returned value holds no set of non-converged samples (they are only
    printed). *)
Lemma optimize_sample_balance_three_results_counterexample :
  Dry.optimize_sample_balance Sample.settle Sample.frame Dry.default_offset_bounds
    = Raise (KeyError (LInt 0)) /\
  exists returned,
    Dry.optimize_sample_balance Sample.settle Sample.frame_1x1 Dry.default_offset_bounds
      = Ok (returned, []) /\
    Dry.optimize_sample_balance Sample.stall Sample.frame_1x1 Dry.default_offset_bounds
      = Ok (returned, [Sample.frame_1x1]).
Proof.
  split; [reflexivity|].
  eexists. split; reflexivity.
Qed.

(** ** The plate/well report *)

Lemma check_plate_names_same (first : string) (l : list string) :
  (forall p, In p l -> p = first) ->
  QcGct2pw.check_plate_names first true l = Ok true.
Proof.
  induction l as [|p l IH]; intro H; simpl; [reflexivity|].
  rewrite (H p) by now left. rewrite String.eqb_refl. simpl.
  apply IH. intros q Hq. apply H. now right.
Qed.

Lemma assemble_median_mad (plate_names well_names : list string)
    (medians mads : list float) :
  length plate_names = length well_names ->
  length medians = length well_names ->
  length mads = length well_names ->
  QcGct2pw.assemble_output_df plate_names well_names
    [("medium_over_heavy_median"%string, QcGct2pw.NumCol medians);
     ("medium_over_heavy_mad"%string, QcGct2pw.NumCol mads)]
  = Ok [("plate_name"%string, QcGct2pw.StrCol plate_names);
        ("well_name"%string, QcGct2pw.StrCol well_names);
        ("medium_over_heavy_mad"%string, QcGct2pw.NumCol mads);
        ("medium_over_heavy_median"%string, QcGct2pw.NumCol medians)].
Proof.
  intros H1 H2 H3. unfold QcGct2pw.assemble_output_df.
  rewrite H1, Nat.eqb_refl. simpl.
  rewrite H2, H3, Nat.eqb_refl. reflexivity.
Qed.

Lemma normalised_columns (data : Pandas.DataFrame) (prov_code : list string) :
  Pandas.columns (QcGct2pw.divided (QcGct2pw.transformed data prov_code))
  = Pandas.columns data.
Proof.
  unfold QcGct2pw.divided, QcGct2pw.transformed.
  now destruct (Dry.str_in _ _).
Qed.

Lemma reduce_cols_length (f : list float -> float) (df : Pandas.DataFrame) :
  length (Pandas.reduce_cols f df) = length (Pandas.columns df).
Proof.
  unfold Pandas.reduce_cols, Pandas.cols. now rewrite length_map, transpose_length.
Qed.

Lemma nth_map_seq {A : Type} (f : nat -> A) (d : A) (n j : nat) :
  (j < n)%nat -> nth j (map f (seq 0 n)) d = f j.
Proof.
  intro Hj. rewrite (nth_indep _ d (f 0%nat)) by now rewrite length_map, length_seq.
  rewrite map_nth, seq_nth by exact Hj. reflexivity.
Qed.

Lemma fold_Rmax_bounds (v : list R) (x : R) :
  x <= fold_left Rmax v x /\
  (forall y, In y v -> y <= fold_left Rmax v x) /\
  In (fold_left Rmax v x) (x :: v).
Proof.
  revert x. induction v as [|a v IH]; intro x; simpl.
  - split; [lra|]. split; [intros y [] | now left].
  - destruct (IH (Rmax x a)) as (H1 & H2 & H3).
    pose proof (Rmax_l x a). pose proof (Rmax_r x a).
    split; [lra|]. split.
    + intros y [<- | Hy]; [lra | now apply H2].
    + destruct H3 as [H3 | H3]; [|now right; right].
      rewrite <- H3. unfold Rmax. destruct (Rle_dec x a); [right; now left | now left].
Qed.

Lemma dropna_In (r : list float) (y : R) : In y (Pandas.dropna r) <-> In (Fin y) r.
Proof.
  induction r as [|[|a] r IH]; simpl.
  - tauto.
  - rewrite IH. split; [now right | intros [H | H]; [discriminate | exact H]].
  - rewrite IH. split; intros [H | H]; auto; left; congruence.
Qed.

Lemma divided_rows (data : Pandas.DataFrame) :
  Pandas.values (QcGct2pw.divided data)
  = map (fun r => map (fun x => div x (Pandas.nanmax r)) r) (Pandas.values data).
Proof.
  unfold QcGct2pw.divided, Pandas.div_rows, Pandas.reduce_rows. simpl.
  induction (Pandas.values data) as [|r rs IH]; simpl; [reflexivity|].
  now rewrite IH.
Qed.

(** A row whose defined cells are positive: divided by its maximum, every
    defined cell lands in (0, 1], and the cell that held the maximum
    becomes 1. *)
Lemma normalised_row (r : list float) :
  (forall y, In (Fin y) r -> 0 < y) ->
  (forall c, In c (map (fun x => div x (Pandas.nanmax r)) r) ->
     c = NaN \/ exists q, c = Fin q /\ 0 < q <= 1) /\
  ((exists y, In (Fin y) r) -> In (Fin 1) (map (fun x => div x (Pandas.nanmax r)) r)).
Proof.
  intro Hpos. unfold Pandas.nanmax.
  destruct (Pandas.dropna r) as [|x v] eqn:E.
  - split.
    + intros c Hc. left. apply in_map_iff in Hc. destruct Hc as (y & <- & _).
      now destruct y.
    + intros (y & Hy). apply dropna_In in Hy. rewrite E in Hy. contradiction.
  - destruct (fold_Rmax_bounds v x) as (Hx & Hv & Hin).
    set (M := fold_left Rmax v x) in *.
    assert (HM : In (Fin M) r) by (apply dropna_In; now rewrite E).
    assert (HMpos : 0 < M) by now apply Hpos.
    assert (Hle : forall y, In (Fin y) r -> y <= M).
    { intros y Hy. apply dropna_In in Hy. rewrite E in Hy.
      destruct Hy as [<- | Hy]; [exact Hx | now apply Hv]. }
    split.
    + intros c Hc. apply in_map_iff in Hc. destruct Hc as ([|y] & <- & Hy).
      * now left.
      * right. simpl. destruct (Req_dec_T M 0) as [E0 | _]; [lra|].
        eexists. split; [reflexivity|].
        specialize (Hpos y Hy). specialize (Hle y Hy).
        split.
        -- apply Rmult_lt_0_compat; [exact Hpos | now apply Rinv_0_lt_compat].
        -- apply (Rmult_le_reg_r M); [exact HMpos|].
           unfold Rdiv. rewrite Rmult_assoc, Rinv_l by lra. lra.
    + intros _. apply in_map_iff. exists (Fin M). split; [|exact HM].
      simpl. destruct (Req_dec_T M 0) as [E0 | _]; [lra|].
      f_equal. field. lra.
Qed.

Lemma transformed_positive (data : Pandas.DataFrame) (prov_code : list string) :
  Forall (Forall (normalisable
                    (Dry.str_in QcGct2pw.LOG_TRANSFORM_PROV_CODE_ENTRY prov_code)))
         (Pandas.values data) ->
  forall r y,
    In r (Pandas.values (QcGct2pw.transformed data prov_code)) ->
    In (Fin y) r -> 0 < y.
Proof.
  intros Hrange r y Hr Hy. unfold QcGct2pw.transformed in Hr.
  rewrite Forall_forall in Hrange.
  destruct (Dry.str_in QcGct2pw.LOG_TRANSFORM_PROV_CODE_ENTRY prov_code).
  - simpl in Hr. apply in_map_iff in Hr. destruct Hr as (r0 & <- & _).
    apply in_map_iff in Hy. destruct Hy as ([|a] & Ha & _); [discriminate|].
    simpl in Ha. injection Ha as <-. unfold Rpower. apply exp_pos.
  - specialize (Hrange r Hr). rewrite Forall_forall in Hrange.
    exact (Hrange (Fin y) Hy).
Qed.

(** C9 (as the code has it).  When the batch has a sample, the metadata
    has the plate, well and provenance fields for every sample and all
    samples share one plate, [main] produces one record per sample, and the
    record holds four entries: the plate name, the well name and the two
    numbers written as medium_over_heavy_mad and medium_over_heavy_median.
    (The mean and the standard deviation are computed and not written.)
    When moreover every defined cell is positive (in log transformed data:
    lies in [-1022, 1024)), no row maximum is zero, every row-normalised
    value lies between 0 and 1, and the two numbers are the mean absolute
    deviation and the median of the sample's row-normalised values. *)
Theorem main_writes_median_and_mad
    (plate_field well_field : string) (gct : QcGct2pw.GCToo)
    (plate_names well_names : list string) (first_code : string)
    (other_codes : list string)
    (Hplate : QcGct2pw.get_field (QcGct2pw.col_metadata_df gct) plate_field
              = Ok plate_names)
    (Hwell : QcGct2pw.get_field (QcGct2pw.col_metadata_df gct) well_field
             = Ok well_names)
    (Hprov : QcGct2pw.get_field (QcGct2pw.col_metadata_df gct) QcGct2pw.PROV_CODE_FIELD
             = Ok (first_code :: other_codes))
    (Hsame : forall p, In p plate_names -> p = hd EmptyString plate_names)
    (Hplates : length plate_names = length well_names)
    (Hwells : length well_names = length (Pandas.columns (QcGct2pw.data_df gct))) :
  let prov_code := QcGct2pw.split QcGct2pw.PROV_CODE_DELIMITER first_code in
  let log_transformed :=
    Dry.str_in QcGct2pw.LOG_TRANSFORM_PROV_CODE_ENTRY prov_code in
  let normalised :=
    QcGct2pw.divided (QcGct2pw.transformed (QcGct2pw.data_df gct) prov_code) in
  exists out_df mads medians,
    QcGct2pw.main plate_field well_field gct = Ok out_df /\
    out_df = [("plate_name"%string, QcGct2pw.StrCol plate_names);
              ("well_name"%string, QcGct2pw.StrCol well_names);
              ("medium_over_heavy_mad"%string, QcGct2pw.NumCol mads);
              ("medium_over_heavy_median"%string, QcGct2pw.NumCol medians)] /\
    length (QcGct2pw.records out_df) = length (Pandas.columns (QcGct2pw.data_df gct)) /\
    (forall j, (j < length (Pandas.columns (QcGct2pw.data_df gct)))%nat ->
       nth j (QcGct2pw.records out_df) []
       = [QcGct2pw.Str (nth j plate_names EmptyString);
          QcGct2pw.Str (nth j well_names EmptyString);
          QcGct2pw.Num (nth j mads NaN);
          QcGct2pw.Num (nth j medians NaN)]) /\
    (Forall (Forall (normalisable log_transformed))
            (Pandas.values (QcGct2pw.data_df gct)) ->
     (forall r c, In r (Pandas.values normalised) -> In c r ->
        c = NaN \/ exists q, c = Fin q /\ 0 <= q <= 1) /\
     mads = Pandas.reduce_cols Pandas.nanmad normalised /\
     medians = Pandas.reduce_cols Pandas.nanmedian normalised).
Proof.
  intros prov_code log_transformed normalised.
  set (mads := Pandas.reduce_cols Pandas.nanmad normalised).
  set (medians := Pandas.reduce_cols Pandas.nanmedian normalised).
  assert (Hmads : length mads = length well_names).
  { unfold mads. rewrite reduce_cols_length. unfold normalised.
    now rewrite normalised_columns. }
  assert (Hmedians : length medians = length well_names).
  { unfold medians. rewrite reduce_cols_length. unfold normalised.
    now rewrite normalised_columns. }
  exists [("plate_name"%string, QcGct2pw.StrCol plate_names);
          ("well_name"%string, QcGct2pw.StrCol well_names);
          ("medium_over_heavy_mad"%string, QcGct2pw.NumCol mads);
          ("medium_over_heavy_median"%string, QcGct2pw.NumCol medians)],
         mads, medians.
  split; [|split; [reflexivity|]].
  - unfold QcGct2pw.main, QcGct2pw.extract_plate_and_well_names.
    rewrite Hplate. simpl.
    rewrite (check_plate_names_same _ _ Hsame). simpl.
    rewrite Hwell. simpl. rewrite Hprov. simpl.
    now apply assemble_median_mad.
  - unfold QcGct2pw.records. simpl QcGct2pw.num_rows.
    rewrite Hplates, Hwells. split; [| split].
    + now rewrite length_map, length_seq.
    + intros j Hj. now rewrite nth_map_seq.
    + intro Hrange. split; [| split; reflexivity].
      intros r c Hr Hc. unfold normalised in Hr.
      rewrite divided_rows in Hr. apply in_map_iff in Hr.
      destruct Hr as (r0 & <- & Hr0).
      assert (Hpos : forall y, In (Fin y) r0 -> 0 < y)
        by (intros y Hy; exact (transformed_positive _ _ Hrange r0 y Hr0 Hy)).
      destruct (proj1 (normalised_row r0 Hpos) c Hc) as [-> | (q & -> & Hq)];
        [now left | right].
      exists q. split; [reflexivity | lra].
Qed.

Lemma main_writes_median_and_mad_witness :
  exists out_df,
    QcGct2pw.main "det_plate" "det_well" Sample.gct = Ok out_df /\
    length (QcGct2pw.records out_df) = 2%nat /\
    map snd out_df
    = [QcGct2pw.StrCol ["P1"; "P1"]%string;
       QcGct2pw.StrCol ["A01"; "A02"]%string;
       QcGct2pw.NumCol
         (Pandas.reduce_cols Pandas.nanmad
            (QcGct2pw.divided (QcGct2pw.data_df Sample.gct)));
       QcGct2pw.NumCol
         (Pandas.reduce_cols Pandas.nanmedian
            (QcGct2pw.divided (QcGct2pw.data_df Sample.gct)))].
Proof.
  assert (Hsame : forall p, In p ["P1"; "P1"]%string -> p = "P1"%string).
  { intros p [<- | [<- | []]]; reflexivity. }
  assert (Hrange : Forall (Forall (normalisable false))
                          (Pandas.values (QcGct2pw.data_df Sample.gct))).
  { repeat constructor; simpl; lra. }
  destruct (main_writes_median_and_mad "det_plate" "det_well" Sample.gct
              ["P1"; "P1"]%string ["A01"; "A02"]%string "PR1+SF8"%string
              ["PR1+SF8"%string] eq_refl eq_refl eq_refl Hsame eq_refl eq_refl)
    as (out_df & mads & medians & Hrun & Hout & Hlen & _ & Hvalues).
  destruct (Hvalues Hrange) as (_ & Hmads & Hmedians).
  exists out_df. split; [exact Hrun|]. split; [exact Hlen|].
  rewrite Hout, Hmads, Hmedians. reflexivity.
Defined.

Lemma sample_gct_normalised :
  Pandas.cols (QcGct2pw.divided
                 (QcGct2pw.transformed (QcGct2pw.data_df Sample.gct)
                    (QcGct2pw.split QcGct2pw.PROV_CODE_DELIMITER "PR1+SF8")))
  = [[Fin (1 / 4); Fin (2 / 4); Fin (4 / 4)]; [Fin (4 / 4); Fin (4 / 4); Fin (4 / 4)]].
Proof.
  unfold QcGct2pw.divided, QcGct2pw.transformed, Pandas.cols. simpl.
  unfold Rmax. real_cases. reflexivity.
Qed.

Lemma sample_gct_median :
  Pandas.nanmedian [Fin (1 / 4); Fin (2 / 4); Fin (4 / 4)] = Fin (1 / 2).
Proof.
  unfold Pandas.nanmedian. simpl. real_cases. f_equal. lra.
Qed.

Lemma sample_gct_mean :
  Pandas.nanmean [Fin (1 / 4); Fin (2 / 4); Fin (4 / 4)] = Fin (7 / 12).
Proof.
  unfold Pandas.nanmean, Pandas.Rsum. simpl. real_cases. f_equal. lra.
Qed.

Lemma sample_gct_mad :
  Pandas.nanmad [Fin (1 / 4); Fin (2 / 4); Fin (4 / 4)] = Fin (5 / 18).
Proof.
  unfold Pandas.nanmad. rewrite sample_gct_mean.
  unfold Pandas.nanmean, Pandas.Rsum. simpl. unfold Rabs.
  real_cases. f_equal. lra.
Qed.

(** C9 as stated fails.  On the sample gct the record of the first sample
    is (P1, A01, 5/18, 1/2): the mean absolute deviation and the median of
    its normalised values 1/4, 1/2, 1.  Their mean, 7/12, is no entry of
    the record.  And with two plate names in the batch no record is
    produced at all: the assertion of [extract_plate_and_well_names]
    fails. *)
Lemma main_four_statistics_counterexample :
  QcGct2pw.main "det_plate" "det_well" Sample.gct_two_plates
    = Raise (AssertionError "All samples must have the same plate name.") /\
  exists out_df,
    QcGct2pw.main "det_plate" "det_well" Sample.gct = Ok out_df /\
    map fst out_df
      = ["plate_name"; "well_name"; "medium_over_heavy_mad";
         "medium_over_heavy_median"]%string /\
    nth 0 (QcGct2pw.records out_df) []
      = [QcGct2pw.Str "P1"; QcGct2pw.Str "A01";
         QcGct2pw.Num (Fin (5 / 18)); QcGct2pw.Num (Fin (1 / 2))] /\
    nth 0 (Pandas.reduce_cols Pandas.nanmean
             (QcGct2pw.divided
                (QcGct2pw.transformed (QcGct2pw.data_df Sample.gct)
                   (QcGct2pw.split QcGct2pw.PROV_CODE_DELIMITER "PR1+SF8"))))
          NaN
      = Fin (7 / 12) /\
    ~ In (QcGct2pw.Num (Fin (7 / 12))) (nth 0 (QcGct2pw.records out_df) []).
Proof.
  set (normalised :=
         QcGct2pw.divided
           (QcGct2pw.transformed (QcGct2pw.data_df Sample.gct)
              (QcGct2pw.split QcGct2pw.PROV_CODE_DELIMITER "PR1+SF8"))).
  set (out_df :=
         [("plate_name"%string, QcGct2pw.StrCol ["P1"; "P1"]%string);
          ("well_name"%string, QcGct2pw.StrCol ["A01"; "A02"]%string);
          ("medium_over_heavy_mad"%string,
           QcGct2pw.NumCol (Pandas.reduce_cols Pandas.nanmad normalised));
          ("medium_over_heavy_median"%string,
           QcGct2pw.NumCol (Pandas.reduce_cols Pandas.nanmedian normalised))]).
  assert (Hrecord :
    nth 0 (QcGct2pw.records out_df) []
    = [QcGct2pw.Str "P1"; QcGct2pw.Str "A01";
       QcGct2pw.Num (Fin (5 / 18)); QcGct2pw.Num (Fin (1 / 2))]).
  { unfold out_df, QcGct2pw.records, Pandas.reduce_cols, normalised.
    rewrite sample_gct_normalised. simpl.
    now rewrite sample_gct_mad, sample_gct_median. }
  split; [reflexivity|].
  exists out_df. split; [reflexivity|]. split; [reflexivity|].
  split; [exact Hrecord|]. split.
  - unfold Pandas.reduce_cols, normalised. rewrite sample_gct_normalised. simpl.
    apply sample_gct_mean.
  - rewrite Hrecord. simpl.
    intros [H | [H | [H | [H | []]]]]; try discriminate; injection H; lra.
Qed.

(** ** The objective *)

(** The terms of the objective when every cell is defined. *)
Lemma objective_terms_fin (o : R) (vs ms : list R) :
  map square (Pandas.map2 sub (map (fun v => add (Fin o) v) (map Fin vs)) (map Fin ms))
  = map Fin (Pandas.map2 (fun v m => (o + v - m) * (o + v - m)) vs ms).
Proof.
  revert ms. induction vs as [|v vs IH]; intros [|m ms]; simpl; try reflexivity.
  now rewrite IH.
Qed.

(** A missing sample value makes its term missing. *)
Lemma objective_terms_nan (offset : float) (values medians : list float) :
  length values = length medians ->
  In NaN values ->
  In NaN (map square (Pandas.map2 sub (map (fun v => add offset v) values) medians)).
Proof.
  revert medians. induction values as [|v values IH]; intros [|m medians] Hlen Hin;
    simpl in *; try contradiction; try discriminate.
  destruct Hin as [-> | Hin].
  - left. now destruct offset.
  - right. apply IH; [congruence | exact Hin].
Qed.

(** A missing median makes its term missing. *)
Lemma objective_terms_nan_median (offset : float) (values medians : list float) :
  length values = length medians ->
  In NaN medians ->
  In NaN (map square (Pandas.map2 sub (map (fun v => add offset v) values) medians)).
Proof.
  revert medians. induction values as [|v values IH]; intros [|m medians] Hlen Hin;
    simpl in *; try contradiction; try discriminate.
  destruct Hin as [-> | Hin].
  - left. now destruct (add offset v).
  - right. apply IH; [congruence | exact Hin].
Qed.

(** C1 (as the code has it).  The objective is the builtin sum of the
    squared deviations over ALL probes, with NaN arithmetic: when the
    offset and every value and median are defined it is the finite sum of
    squares (and then agrees with the specification's wording); as soon as
    one sample value is missing the objective itself is missing. *)
Theorem function_to_optimize_sums_all_probes
    (offset : float) (values medians : list float)
    (Hlen : length values = length medians) :
  (forall o vs ms,
      offset = Fin o -> values = map Fin vs -> medians = map Fin ms ->
      Dry.function_to_optimize offset values medians
        = Fin (Pandas.Rsum (Pandas.map2 (fun v m => (o + v - m) * (o + v - m)) vs ms)) /\
      Dry.function_to_optimize offset values medians
        = Dry.objective_spec offset values medians) /\
  (In NaN values -> Dry.function_to_optimize offset values medians = NaN) /\
  (In NaN medians -> Dry.function_to_optimize offset values medians = NaN).
Proof.
  split; [|split].
  - intros o vs ms -> -> ->.
    unfold Dry.function_to_optimize, Dry.objective_spec.
    rewrite objective_terms_fin, py_sum_fin, dropna_fin. split; reflexivity.
  - intro Hin. unfold Dry.function_to_optimize, NumPy.py_sum.
    apply fold_add_in_nan. now apply objective_terms_nan.
  - intro Hin. unfold Dry.function_to_optimize, NumPy.py_sum.
    apply fold_add_in_nan. now apply objective_terms_nan_median.
Qed.

Lemma function_to_optimize_sums_all_probes_witness :
  length [Fin 1; NaN] = length [Fin 1; Fin 1] /\
  Dry.function_to_optimize (Fin 0) [Fin 1; NaN] [Fin 1; Fin 1] = NaN /\
  Dry.function_to_optimize (Fin 2) [Fin 1; Fin 5] [Fin 3; Fin 4]
    = Fin (Pandas.Rsum [(2 + 1 - 3) * (2 + 1 - 3); (2 + 5 - 4) * (2 + 5 - 4)]).
Proof.
  split; [reflexivity|]. split.
  - apply (proj1 (proj2 (function_to_optimize_sums_all_probes
                            (Fin 0) [Fin 1; NaN] [Fin 1; Fin 1] eq_refl))).
    right. now left.
  - exact (proj1 (proj1 (function_to_optimize_sums_all_probes
                           (Fin 2) [Fin 1; Fin 5] [Fin 3; Fin 4] eq_refl)
                        2 [1; 5] [3; 4] eq_refl eq_refl eq_refl)).
Defined.

(** C1 as stated fails: with values [1, nan], medians [1, 1] and offset 0
    one probe value is defined, the sum over the defined probes is 0, and
    the code returns nan. *)
Lemma function_to_optimize_skips_missing_counterexample :
  In (Fin 1) [Fin 1; NaN] /\
  Dry.objective_spec (Fin 0) [Fin 1; NaN] [Fin 1; Fin 1] = Fin 0 /\
  Dry.function_to_optimize (Fin 0) [Fin 1; NaN] [Fin 1; Fin 1] = NaN /\
  Dry.function_to_optimize (Fin 0) [Fin 1; NaN] [Fin 1; Fin 1]
    <> Dry.objective_spec (Fin 0) [Fin 1; NaN] [Fin 1; Fin 1].
Proof.
  split; [| split; [| split]].
  - now left.
  - unfold Dry.objective_spec. simpl. f_equal. unfold Pandas.Rsum. simpl. lra.
  - reflexivity.
  - discriminate.
Qed.

(** *** Assay types as NumPy stores them *)

Lemma np_str_nuls (k : nat) : Dry.np_str (nuls k) = EmptyString.
Proof.
  induction k as [|k IH]; [reflexivity|].
  simpl. rewrite IH. reflexivity.
Qed.

Lemma np_str_app_nuls (s : string) (k : nat) :
  Dry.np_str (s ++ nuls k) = Dry.np_str s.
Proof.
  induction s as [|c s IH]; simpl.
  - apply np_str_nuls.
  - rewrite IH. reflexivity.
Qed.

Lemma np_str_padding (s : string) :
  exists k, s = (Dry.np_str s ++ nuls k)%string.
Proof.
  induction s as [|c s [k IH]].
  - exists 0%nat. reflexivity.
  - simpl. destruct (Dry.np_str s) as [|c' rest] eqn:E.
    + destruct (Ascii.eqb c Ascii.zero) eqn:Ec.
      * apply Ascii.eqb_eq in Ec. subst c. exists (S k). simpl.
        simpl in IH. now rewrite <- IH.
      * exists k. simpl. simpl in IH. now rewrite <- IH.
    + exists k. simpl. f_equal. exact IH.
Qed.

Lemma nuls_snoc (k : nat) :
  nuls (S k) = (nuls k ++ String Ascii.zero EmptyString)%string.
Proof.
  induction k as [|k IH]; [reflexivity|].
  simpl in *. f_equal. exact IH.
Qed.

Lemma string_app_assoc (s t u : string) :
  ((s ++ t) ++ u)%string = (s ++ (t ++ u))%string.
Proof.
  induction s as [|c s IH]; simpl; [reflexivity | now rewrite IH].
Qed.

Lemma string_app_empty (s : string) : (s ++ EmptyString)%string = s.
Proof.
  induction s as [|c s IH]; simpl; [reflexivity | now rewrite IH].
Qed.

Lemma allowed_assay_type_stored (t : string) :
  In t Dry.allowed_assay_types ->
  Dry.str_in t Dry.allowed_assay_types = true /\ Dry.np_str t = t.
Proof.
  intros [H | [H | [H | []]]]; subst t; split; reflexivity.
Qed.

Lemma str_in_allowed (t : string) :
  Dry.str_in t Dry.allowed_assay_types = true -> In t Dry.allowed_assay_types.
Proof.
  unfold Dry.str_in. rewrite existsb_exists.
  intros [x [Hx He]]. apply String.eqb_eq in He. now subst.
Qed.

(** What [determine_assay_type] does on every string: it returns the
    stored form of the string when that is an allowed type, and raises the
    "not recognized" exception when it is not. *)
Lemma determine_assay_type_cases (code : string) :
  (In (Dry.np_str code) Dry.allowed_assay_types /\
   Dry.determine_assay_type code = Ok (Dry.np_str code)) \/
  (~ In (Dry.np_str code) Dry.allowed_assay_types /\
   exists msg, Dry.determine_assay_type code = Raise (Exception msg)).
Proof.
  unfold Dry.determine_assay_type.
  destruct (Dry.str_in (Dry.np_str code) Dry.allowed_assay_types) eqn:E; simpl.
  - left. split; [now apply str_in_allowed | reflexivity].
  - right. split.
    + intro H. apply allowed_assay_type_stored in H. destruct H as [H _].
      rewrite H in E. discriminate.
    + eexists. reflexivity.
Qed.

(** C7 as stated fails: the string "PR1" followed by a NUL character is
    not one of the three recognised assay types, and [determine_assay_type]
    accepts it, returning "PR1". *)
Lemma determine_assay_type_trailing_nul_counterexample :
  ~ In ("PR1" ++ String Ascii.zero EmptyString)%string ["PR1"; "GR1"; "DR1"]%string /\
  Dry.determine_assay_type ("PR1" ++ String Ascii.zero EmptyString)
    = Ok "PR1"%string.
Proof.
  split.
  - intros [H | [H | [H | []]]]; discriminate.
  - reflexivity.
Qed.

(** C7, amended.  [determine_assay_type] accepts a string exactly when it
    is one of the three recognised assay types followed by any number
    (possibly none) of NUL characters, and then returns the type without
    them; on every other string it raises the "not recognized" exception.
    So on strings that do not end with a NUL character it accepts exactly
    the three types; "PR1" is accepted and "XX9" is rejected. *)
Theorem determine_assay_type_iff_allowed_up_to_nuls :
  (forall code : string,
      (exists a, Dry.determine_assay_type code = Ok a) <->
      (exists t k, In t ["PR1"; "GR1"; "DR1"]%string /\
                   code = (t ++ nuls k)%string)) /\
  (forall code a,
      Dry.determine_assay_type code = Ok a ->
      In a ["PR1"; "GR1"; "DR1"]%string /\
      exists k, code = (a ++ nuls k)%string) /\
  (forall code : string,
      ~ (exists t k, In t ["PR1"; "GR1"; "DR1"]%string /\
                     code = (t ++ nuls k)%string) ->
      exists msg, Dry.determine_assay_type code = Raise (Exception msg)) /\
  (forall code : string,
      ~ trailing_nul code ->
      ((exists a, Dry.determine_assay_type code = Ok a) <->
       In code ["PR1"; "GR1"; "DR1"]%string)) /\
  Dry.determine_assay_type "PR1" = Ok "PR1"%string /\
  (exists msg, Dry.determine_assay_type "XX9" = Raise (Exception msg)).
Proof.
  assert (Hok : forall code a,
             Dry.determine_assay_type code = Ok a ->
             In a Dry.allowed_assay_types /\
             exists k, code = (a ++ nuls k)%string).
  { intros code a Ha.
    destruct (determine_assay_type_cases code) as [[Hin He] | [_ [msg He]]];
      rewrite He in Ha; [| discriminate].
    injection Ha as <-. split; [exact Hin | apply np_str_padding]. }
  assert (Hpad : forall t k,
             In t Dry.allowed_assay_types ->
             Dry.determine_assay_type (t ++ nuls k) = Ok t).
  { intros t k Hin.
    destruct (determine_assay_type_cases (t ++ nuls k)%string)
      as [[_ He] | [Hnot _]];
      rewrite np_str_app_nuls in *;
      destruct (allowed_assay_type_stored t Hin) as [_ Hst];
      rewrite Hst in *; [exact He | contradiction]. }
  assert (Hiff : forall code : string,
             (exists a, Dry.determine_assay_type code = Ok a) <->
             (exists t k, In t Dry.allowed_assay_types /\
                          code = (t ++ nuls k)%string)).
  { intro code. split.
    - intros [a Ha]. destruct (Hok code a Ha) as [Hin [k Hk]].
      now exists a, k.
    - intros [t [k [Hin ->]]]. exists t. now apply Hpad. }
  split; [exact Hiff|]. split; [exact Hok|]. split; [| split; [| split]].
  - intros code Hnot.
    destruct (determine_assay_type_cases code) as [[Hin He] | [_ Hmsg]];
      [| exact Hmsg].
    exfalso. apply Hnot. apply Hiff. eexists. exact He.
  - intros code Hend. rewrite Hiff. split.
    + intros [t [[|k] [Hin ->]]].
      * simpl. now rewrite string_app_empty.
      * exfalso. apply Hend. exists (t ++ nuls k)%string.
        rewrite nuls_snoc. now rewrite string_app_assoc.
    + intro Hin. exists code, 0%nat. split; [exact Hin|].
      simpl. now rewrite string_app_empty.
  - reflexivity.
  - eexists. reflexivity.
Qed.

Lemma determine_assay_type_iff_allowed_up_to_nuls_witness :
  Dry.determine_assay_type ("GR1" ++ nuls 2) = Ok "GR1"%string /\
  (In "GR1"%string ["PR1"; "GR1"; "DR1"]%string /\
   exists k, ("GR1" ++ nuls 2)%string = ("GR1" ++ nuls k)%string) /\
  ~ trailing_nul "DR1" /\
  ((exists a, Dry.determine_assay_type "DR1" = Ok a) <->
   In "DR1"%string ["PR1"; "GR1"; "DR1"]%string).
Proof.
  assert (Hrun : Dry.determine_assay_type ("GR1" ++ nuls 2) = Ok "GR1"%string)
    by reflexivity.
  assert (Hend : ~ trailing_nul "DR1").
  { intros [s' H]. destruct s' as [|c1 [|c2 [|c3 [|c4 s']]]]; discriminate. }
  split; [exact Hrun|]. split.
  - exact (proj1 (proj2 determine_assay_type_iff_allowed_up_to_nuls)
             ("GR1" ++ nuls 2)%string "GR1"%string Hrun).
  - split; [exact Hend|].
    exact (proj1 (proj2 (proj2 (proj2 determine_assay_type_iff_allowed_up_to_nuls)))
             "DR1"%string Hend).
Defined.



(** * Further properties of the code *)

(** ** The objective as a function of the offset *)



(** The objective of a sample that is the medians shifted by a constant
    [c]: at offset [o] it is (number of probes) * (o + c)^2, so it is zero
    exactly at the offset [-c] that undoes the shift. *)
Theorem function_to_optimize_shifted_sample (o c : R) (ms : list R) :
  Dry.function_to_optimize (Fin o) (map (fun m => Fin (m + c)) ms) (map Fin ms)
    = Fin (INR (length ms) * ((o + c) * (o + c))) /\
  Dry.function_to_optimize (Fin (- c)) (map (fun m => Fin (m + c)) ms) (map Fin ms)
    = Fin 0.
Proof.
  assert (Hgen : forall o',
             Dry.function_to_optimize (Fin o') (map (fun m => Fin (m + c)) ms)
                                      (map Fin ms)
             = Fin (INR (length ms) * ((o' + c) * (o' + c)))).
  { intro o'. unfold Dry.function_to_optimize.
    rewrite <- (map_map (fun m => m + c) Fin).
    rewrite objective_terms_fin, py_sum_fin. f_equal.
    induction ms as [|m ms IH].
    - unfold Pandas.Rsum. simpl. lra.
    - rewrite length_cons, S_INR. unfold Pandas.Rsum in *. simpl. rewrite IH. lra. }
  split; [apply Hgen|].
  rewrite Hgen. f_equal. replace (- c + c) with 0 by lra. lra.
Qed.



(** ** Outlier removal: what is kept and what is lost *)




(** ** The filters at the edges *)

Lemma select_nil_r {A : Type} (mask : list bool) : NumPy.select mask (@nil A) = [].
Proof. now destruct mask. Qed.

Lemma select_all_true {A : Type} (l : list A) :
  NumPy.select (repeat true (length l)) l = l.
Proof. induction l as [|a l IH]; simpl; [reflexivity | now rewrite IH]. Qed.

Lemma map_all_true {A : Type} (f : A -> bool) (l : list A) :
  (forall x, In x l -> f x = true) -> map f l = repeat true (length l).
Proof.
  induction l as [|a l IH]; intro H; simpl; [reflexivity|].
  rewrite (H a) by now left. f_equal. apply IH. intros x Hx. apply H. now right.
Qed.

Lemma count_nan_le (l : list float) : (Pandas.count_nan l <= length l)%nat.
Proof. unfold Pandas.count_nan. apply filter_length_le. Qed.

Lemma missing_fraction_bounds (cells : list float) (n : nat) :
  n <> 0%nat -> length cells = n ->
  exists q, missing_fraction cells n = Fin q /\ 0 <= q <= 1.
Proof.
  intros Hn Hlen. unfold missing_fraction, of_nat. simpl.
  destruct (Req_dec_T (INR n) 0) as [E | _].
  - exfalso. now apply (not_0_INR n Hn).
  - eexists. split; [reflexivity|].
    assert (Hpos : 0 < INR n) by (apply lt_0_INR; lia).
    assert (Hc : 0 <= INR (Pandas.count_nan cells)) by apply pos_INR.
    assert (Hle : INR (Pandas.count_nan cells) <= INR n).
    { apply le_INR. rewrite <- Hlen. apply count_nan_le. }
    split.
    + apply Rmult_le_pos; [exact Hc | apply Rlt_le, Rinv_0_lt_compat, Hpos].
    + apply (Rmult_le_reg_r (INR n)); [exact Hpos|].
      unfold Rdiv. rewrite Rmult_assoc, Rinv_l by lra. lra.
Qed.

Lemma cols_column_length (df : Pandas.DataFrame) (col : list float) :
  In col (Pandas.cols df) -> length col = length (Pandas.values df).
Proof.
  unfold Pandas.cols, NumPy.transpose. intro H. apply in_map_iff in H.
  destruct H as (j & <- & _). now rewrite length_map.
Qed.

(** A frame without rows loses all its columns, whatever the cutoff: the
    missing fraction of every column is 0/0. *)
Theorem filter_samples_no_rows (df : Pandas.DataFrame) (cutoff : float)
    (Hindex : Pandas.index df = []) (Hvalues : Pandas.values df = []) :
  Dry.filter_samples df cutoff = NumPy.mk_ndarray (0, 0)%nat [].
Proof.
  unfold Dry.filter_samples, Pandas.to_values, Pandas.loc_columns, Pandas.shape.
  rewrite filter_samples_mask. simpl. rewrite Hindex, Hvalues. simpl.
  rewrite (map_all_false _ (Pandas.cols df)).
  - now rewrite select_all_false.
  - intros col Hcol. apply cols_column_length in Hcol. rewrite Hvalues in Hcol.
    destruct col; [|discriminate].
    unfold missing_fraction, of_nat. simpl.
    destruct (Req_dec_T 0 0) as [_ | H]; [reflexivity | contradiction].
Qed.

Lemma filter_samples_no_rows_witness :
  Dry.filter_samples Sample.frame_no_rows (Fin 2) = NumPy.mk_ndarray (0, 0)%nat [].
Proof.
  exact (filter_samples_no_rows Sample.frame_no_rows (Fin 2) eq_refl eq_refl).
Defined.

(** On a frame with rows, a cutoff above 1 keeps every column (the result
    is the array of all cells), and a cutoff that is not positive, or
    undefined, removes every column. *)
Theorem filter_samples_cutoff_extremes (df : Pandas.DataFrame)
    (Hwf : Pandas.wf df) (Hrows : Pandas.index df <> []) :
  (forall c, 1 < c -> Dry.filter_samples df (Fin c) = Pandas.to_values df) /\
  (forall cutoff, (cutoff = NaN \/ exists c, cutoff = Fin c /\ c <= 0) ->
     Dry.filter_samples df cutoff
     = NumPy.mk_ndarray (length (Pandas.index df), 0%nat)
                        (map (fun _ => []) (Pandas.values df))).
Proof.
  destruct Hwf as [Hlen Hcells].
  assert (Hn : length (Pandas.index df) <> 0%nat).
  { destruct (Pandas.index df); [contradiction | discriminate]. }
  assert (Hfrac : forall col, In col (Pandas.cols df) ->
            exists q, missing_fraction col (length (Pandas.index df)) = Fin q /\
                      0 <= q <= 1).
  { intros col Hcol. apply missing_fraction_bounds; [exact Hn|].
    rewrite <- Hlen. now apply cols_column_length. }
  assert (Hncols : length (Pandas.cols df) = length (Pandas.columns df)).
  { unfold Pandas.cols. apply transpose_length. }
  split.
  - intros c Hc.
    unfold Dry.filter_samples, Pandas.to_values, Pandas.loc_columns, Pandas.shape.
    rewrite filter_samples_mask. simpl.
    rewrite (map_all_true _ (Pandas.cols df)).
    + rewrite Hncols, select_all_true. do 2 f_equal.
      rewrite <- (map_id (Pandas.values df)) at 2.
      apply map_ext_in. intros r Hr.
      rewrite Forall_forall in Hcells. rewrite <- (Hcells r Hr).
      apply select_all_true.
    + intros col Hcol. destruct (Hfrac col Hcol) as (q & -> & Hq). simpl.
      destruct (Rlt_dec q c); [reflexivity | lra].
  - intros cutoff Hcut.
    unfold Dry.filter_samples, Pandas.to_values, Pandas.loc_columns, Pandas.shape.
    rewrite filter_samples_mask. simpl.
    rewrite (map_all_false _ (Pandas.cols df)).
    + rewrite select_all_false. simpl.
      rewrite (map_ext (NumPy.select (repeat false (length (Pandas.cols df))))
                       (fun _ => []))
        by (intro r; apply select_all_false).
      reflexivity.
    + intros col Hcol. destruct (Hfrac col Hcol) as (q & -> & Hq).
      destruct Hcut as [-> | (c & -> & Hc)]; simpl; [reflexivity|].
      destruct (Rlt_dec q c); [lra | reflexivity].
Qed.

Lemma filter_samples_cutoff_extremes_witness :
  Dry.filter_samples Sample.frame (Fin 2) = Pandas.to_values Sample.frame /\
  Dry.filter_samples Sample.frame (Fin 0)
    = NumPy.mk_ndarray (2, 0)%nat [[]; []].
Proof.
  assert (Hwf : Pandas.wf Sample.frame).
  { split; [reflexivity | repeat constructor]. }
  assert (Hrows : Pandas.index Sample.frame <> []) by discriminate.
  destruct (filter_samples_cutoff_extremes Sample.frame Hwf Hrows) as [Hhigh Hlow].
  split.
  - apply Hhigh. lra.
  - apply (Hlow (Fin 0)). right. exists 0. split; [reflexivity | lra].
Defined.

Lemma filter_probes_eval (df : Pandas.DataFrame) (c1 c2 : float) :
  Dry.filter_probes df c1 c2
  = Pandas.loc_rows df
      (map (probe_kept (length (Pandas.columns df)) c1 c2) (Pandas.values df)).
Proof.
  unfold Dry.filter_probes. now rewrite filter_probes_mask.
Qed.

Lemma probe_kept_two_defined (n : nat) (c1 c2 : float) (r : list float) :
  probe_kept n c1 c2 r = true -> (2 <= length (Pandas.dropna r))%nat.
Proof.
  unfold probe_kept. rewrite andb_true_iff. intros [_ Hsd].
  unfold Pandas.nanstd, Pandas.nanvar in Hsd.
  destruct (Nat.leb_spec (length (Pandas.dropna r)) 1) as [Hle | Hgt];
    [discriminate | lia].
Qed.

Lemma dropna_length_le (r : list float) : (length (Pandas.dropna r) <= length r)%nat.
Proof.
  induction r as [|[|a] r IH]; simpl; lia.
Qed.

(** [filter_probes] never keeps a probe with fewer than two defined cells
    (its standard deviation is undefined), whatever the cutoffs; on a frame
    of at most one sample it therefore removes every probe. *)
Theorem filter_probes_needs_two_defined_cells
    (df : Pandas.DataFrame) (probe_pct_cutoff probe_sd_cutoff : float)
    (Hwf : Pandas.wf df) :
  let out := Dry.filter_probes df probe_pct_cutoff probe_sd_cutoff in
  (forall r, In r (Pandas.values out) -> (2 <= length (Pandas.dropna r))%nat) /\
  ((length (Pandas.columns df) <= 1)%nat ->
   Pandas.values out = [] /\ Pandas.index out = []).
Proof.
  intro out. unfold out. rewrite filter_probes_eval. simpl.
  destruct Hwf as [Hlen Hcells].
  split.
  - intros r Hr. rewrite select_map_mask in Hr. apply filter_In in Hr.
    destruct Hr as [_ Hk]. now apply probe_kept_two_defined in Hk.
  - intro Hone.
    rewrite (map_all_false _ (Pandas.values df)).
    + now rewrite !select_all_false.
    + intros r Hr.
      destruct (probe_kept _ _ _ r) eqn:Hk; [|reflexivity].
      apply probe_kept_two_defined in Hk.
      rewrite Forall_forall in Hcells. specialize (Hcells r Hr).
      pose proof (dropna_length_le r). lia.
Qed.

Lemma filter_probes_needs_two_defined_cells_witness :
  Pandas.values (Dry.filter_probes Sample.frame_1x1 (Fin 1) (Fin 1)) = [] /\
  Pandas.index (Dry.filter_probes Sample.frame_1x1 (Fin 1) (Fin 1)) = [].
Proof.
  assert (Hwf : Pandas.wf Sample.frame_1x1).
  { split; [reflexivity | repeat constructor]. }
  apply (proj2 (filter_probes_needs_two_defined_cells
                  Sample.frame_1x1 (Fin 1) (Fin 1) Hwf)).
  simpl. lia.
Defined.

Lemma select_twice {A B : Type} (k k' : B -> bool) (v : list B) (l : list A) :
  (forall r, In r v -> k r = true -> k' r = true) ->
  NumPy.select (map k (NumPy.select (map k' v) v)) (NumPy.select (map k' v) l)
  = NumPy.select (map k v) l.
Proof.
  revert l. induction v as [|r v IH]; intros l Himp; [reflexivity|].
  assert (Htail : forall l' : list A,
             NumPy.select (map k (NumPy.select (map k' v) v))
                          (NumPy.select (map k' v) l')
             = NumPy.select (map k v) l').
  { intro l'. apply IH. intros r' Hr'. apply Himp. now right. }
  destruct l as [|a l].
  - simpl. now rewrite !select_nil_r.
  - simpl. destruct (k' r) eqn:Hk'; simpl.
    + destruct (k r); simpl; now rewrite Htail.
    + destruct (k r) eqn:Hk.
      * rewrite (Himp r) in Hk' by (try (now left); exact Hk). discriminate.
      * apply Htail.
Qed.

Lemma ltb_mono (x : float) (c c' : R) :
  c <= c' -> ltb x (Fin c) = true -> ltb x (Fin c') = true.
Proof.
  destruct x as [|a]; simpl; [discriminate|]. intros Hc.
  destruct (Rlt_dec a c); [|discriminate]. intros _.
  destruct (Rlt_dec a c'); [reflexivity | lra].
Qed.

Lemma filter_probes_twice (df : Pandas.DataFrame) (c1 c2 c1' c2' : float) :
  (forall r, probe_kept (length (Pandas.columns df)) c1 c2 r = true ->
             probe_kept (length (Pandas.columns df)) c1' c2' r = true) ->
  Dry.filter_probes (Dry.filter_probes df c1' c2') c1 c2 = Dry.filter_probes df c1 c2.
Proof.
  intro Himp. rewrite (filter_probes_eval df c1' c2').
  rewrite filter_probes_eval. unfold Pandas.loc_rows. simpl.
  rewrite !select_twice by (intros r _; apply Himp).
  now rewrite (filter_probes_eval df c1 c2).
Qed.

(** Filtering the probes again changes nothing, and filtering with
    stricter cutoffs after looser ones gives what the stricter cutoffs give
    on the original frame. *)
Theorem filter_probes_idempotent_and_nested (df : Pandas.DataFrame) :
  (forall c1 c2 : float,
      Dry.filter_probes (Dry.filter_probes df c1 c2) c1 c2
      = Dry.filter_probes df c1 c2) /\
  (forall a1 a2 a1' a2' : R,
      a1 <= a1' -> a2 <= a2' ->
      Dry.filter_probes (Dry.filter_probes df (Fin a1') (Fin a2')) (Fin a1) (Fin a2)
      = Dry.filter_probes df (Fin a1) (Fin a2)).
Proof.
  split.
  - intros c1 c2. apply filter_probes_twice. auto.
  - intros a1 a2 a1' a2' H1 H2. apply filter_probes_twice.
    intro r. unfold probe_kept. rewrite !andb_true_iff. intros [Hp Hs].
    split; [now apply (ltb_mono _ a1) | now apply (ltb_mono _ a2)].
Qed.

Lemma filter_probes_idempotent_and_nested_witness :
  Dry.filter_probes (Dry.filter_probes Sample.frame (Fin 1) (Fin 2)) (Fin (1 / 2)) (Fin 1)
  = Dry.filter_probes Sample.frame (Fin (1 / 2)) (Fin 1).
Proof.
  apply (proj2 (filter_probes_idempotent_and_nested Sample.frame)); lra.
Defined.

(** ** The optimiser: offsets, labels and missing cells *)

Lemma nth_map2 {A B C : Type} (f : A -> B -> C) (l : list A) (l' : list B)
    (j : nat) (da : A) (db : B) (dc : C) :
  (j < length l)%nat -> (j < length l')%nat ->
  nth j (Pandas.map2 f l l') dc = f (nth j l da) (nth j l' db).
Proof.
  revert l l'. induction j as [|j IH]; intros [|a l] [|b l'] H1 H2;
    simpl in *; try lia; [reflexivity|].
  apply IH; lia.
Qed.

(** Under the default labels every cell of the returned frame is the input
    cell plus the offset found for its column: a missing cell stays
    missing, and a defined cell stays defined when the offset is defined. *)
Theorem optimize_sample_balance_shifts_cells
    (minimize_scalar : Dry.minimizer) (df : Pandas.DataFrame)
    (offset_bounds : float * float) (n : nat)
    (Hcolumns : Pandas.columns df = range_index n)
    (Hwf : Pandas.wf df) :
  let result := sample_result minimize_scalar df offset_bounds in
  exists df_with_offsets distances printed,
    Dry.optimize_sample_balance minimize_scalar df offset_bounds
      = Ok ((df_with_offsets, distances), printed) /\
    (forall i j, (i < length (Pandas.values df))%nat -> (j < n)%nat ->
       nth j (nth i (Pandas.values df_with_offsets) []) NaN
       = add (nth j (nth i (Pandas.values df) []) NaN) (Dry.x (result j))) /\
    (forall i j o, (i < length (Pandas.values df))%nat -> (j < n)%nat ->
       Dry.x (result j) = Fin o ->
       isnull (nth j (nth i (Pandas.values df_with_offsets) []) NaN)
       = isnull (nth j (nth i (Pandas.values df) []) NaN)).
Proof.
  intro result.
  pose proof (optimize_sample_balance_eval minimize_scalar df offset_bounds n Hcolumns)
    as Hrun.
  cbv zeta in Hrun. fold result in Hrun.
  destruct Hwf as [_ Hcells].
  assert (Hn : length (Pandas.columns df) = n).
  { rewrite Hcolumns. unfold range_index. now rewrite length_map, length_seq. }
  assert (Hcell : forall i j, (i < length (Pandas.values df))%nat -> (j < n)%nat ->
            nth j (nth i (Pandas.values
                            (Pandas.add_columns df
                               (map (fun i => Dry.x (result i)) (seq 0 n)))) []) NaN
            = add (nth j (nth i (Pandas.values df) []) NaN) (Dry.x (result j))).
  { intros i j Hi Hj. simpl.
    change (@nil float) with
      ((fun r => Pandas.map2 add r (map (fun i => Dry.x (result i)) (seq 0 n))) [])
      at 1.
    rewrite map_nth.
    assert (Hrow : length (nth i (Pandas.values df) []) = n).
    { rewrite Forall_forall in Hcells. rewrite <- Hn. apply Hcells.
      now apply nth_In. }
    rewrite (nth_map2 add _ _ j NaN NaN NaN)
      by (try rewrite Hrow; try rewrite length_map, length_seq; exact Hj).
    now rewrite nth_map_seq. }
  do 3 eexists. split; [exact Hrun|]. split; [exact Hcell|].
  intros i j o Hi Hj Ho. rewrite (Hcell i j Hi Hj), Ho.
  now destruct (nth j (nth i (Pandas.values df) []) NaN).
Qed.

Lemma optimize_sample_balance_shifts_cells_witness :
  exists df_with_offsets distances printed,
    Dry.optimize_sample_balance Sample.settle Sample.frame_missing
                                Dry.default_offset_bounds
      = Ok ((df_with_offsets, distances), printed) /\
    nth 1 (nth 0 (Pandas.values df_with_offsets) []) NaN = NaN.
Proof.
  assert (Hwf : Pandas.wf Sample.frame_missing).
  { split; [reflexivity | repeat constructor]. }
  destruct (optimize_sample_balance_shifts_cells
              Sample.settle Sample.frame_missing Dry.default_offset_bounds 2
              eq_refl Hwf)
    as (out & ds & pr & Hrun & Hcell & _).
  exists out, ds, pr. split; [exact Hrun|].
  rewrite (Hcell 0%nat 1%nat); [reflexivity | simpl; lia | lia].
Defined.





Lemma label_eqb_eq (a b : label) : Pandas.label_eqb a b = true <-> a = b.
Proof.
  destruct a as [x | x], b as [y | y]; simpl.
  - rewrite Z.eqb_eq. split; [now intros -> | now intros [= ->]].
  - split; discriminate.
  - split; discriminate.
  - rewrite String.eqb_eq. split; [now intros -> | now intros [= ->]].
Qed.


Lemma position_some (key : label) (ls : list label) :
  In key ls -> exists j, Pandas.position key ls = Some j.
Proof.
  induction ls as [|l ls IH]; intro Hin; [contradiction|]. simpl.
  destruct (Pandas.label_eqb key l) eqn:E; [now exists 0%nat|].
  destruct Hin as [-> | Hin].
  - assert (Pandas.label_eqb key key = true) by now apply label_eqb_eq.
    congruence.
  - destruct (IH Hin) as (j & ->). now exists (S j).
Qed.


Section LoopAnyLabels.
Variable minimize_scalar : Dry.minimizer.
Variable df : Pandas.DataFrame.
Variable offset_bounds : float * float.

Let n := length (Pandas.columns df).
Let medians := Pandas.reduce_rows Pandas.nanmedian df.
Let sample_vals (i : nat) : list float :=
  match Pandas.loc_column df (Z.of_nat i) with
  | Ok v => v
  | Raise _ => []
  end.
Let result (i : nat) : Dry.OptimizeResult :=
  minimize_scalar
    (fun offset => Dry.function_to_optimize offset (sample_vals i) medians)
    offset_bounds.
Let unoptimized (i : nat) : float :=
  Dry.function_to_optimize (Fin 0) (sample_vals i) medians.
Let state (k : nat) : Dry.outputs :=
  Dry.mk_outputs (filled (fun i => Dry.x (result i)) (Fin 0) k n)
                 (filled (fun i => Dry.fun_ (result i)) (Fin 0) k n)
                 (filled unoptimized (Fin 0) k n)
                 (filled (fun i => Dry.success (result i)) false k n).

Lemma loop_body_label_found (k : nat) :
  (k < n)%nat -> In (LInt (Z.of_nat k)) (Pandas.columns df) ->
  Dry.loop_body minimize_scalar df medians offset_bounds k (state k)
  = Ok (state (S k)).
Proof.
  intros Hk Hin. unfold Dry.loop_body.
  assert (Hloc : Pandas.loc_column df (Z.of_nat k) = Ok (sample_vals k)).
  { unfold sample_vals, Pandas.loc_column.
    destruct (position_some _ _ Hin) as (j & ->). reflexivity. }
  rewrite Hloc. simpl.
  change (Dry.function_to_optimize (Fin 0) (sample_vals k) medians)
    with (unoptimized k).
  change (minimize_scalar _ offset_bounds) with (result k).
  rewrite (set_item_filled unoptimized (Fin 0) k n Hk). simpl.
  rewrite (set_item_filled (fun i => Dry.x (result i)) (Fin 0) k n Hk). simpl.
  rewrite (set_item_filled (fun i => Dry.fun_ (result i)) (Fin 0) k n Hk). simpl.
  rewrite (set_item_filled (fun i => Dry.success (result i)) false k n Hk). simpl.
  reflexivity.
Qed.


Lemma loop_labelled_rounds (m k : nat) :
  (k + m <= n)%nat ->
  (forall i, (k <= i < k + m)%nat -> In (LInt (Z.of_nat i)) (Pandas.columns df)) ->
  Dry.for_each (Dry.loop_body minimize_scalar df medians offset_bounds)
               (seq k m) (state k)
  = Ok (state (k + m)).
Proof.
  revert k. induction m as [|m IH]; intros k Hkm Hall; simpl.
  - now rewrite Nat.add_0_r.
  - rewrite loop_body_label_found by (try apply Hall; lia). simpl.
    rewrite IH by (try lia; intros i Hi; apply Hall; lia).
    f_equal. f_equal. lia.
Qed.

End LoopAnyLabels.



(** ** The provenance code as an append-only history *)



(** ** The plate/well report: metadata errors *)

Lemma get_field_missing (col_meta : list (string * list string)) (field : string) :
  ~ In field (map fst col_meta) ->
  QcGct2pw.get_field col_meta field = Raise (KeyError (LStr field)).
Proof.
  induction col_meta as [|[f v] col_meta IH]; intro Hnot; simpl; [reflexivity|].
  destruct (String.eqb_spec field f) as [-> | Hneq].
  - exfalso. apply Hnot. now left.
  - apply IH. intro H. apply Hnot. now right.
Qed.

Lemma check_plate_names_differ (first : string) (l : list string) (same : bool) :
  (exists p, In p l /\ p <> first) ->
  QcGct2pw.check_plate_names first same l
  = Raise (AssertionError "All samples must have the same plate name.").
Proof.
  revert same. induction l as [|p l IH]; intros same (q & Hq & Hneq);
    [contradiction|].
  simpl. destruct (same && String.eqb p first)%bool eqn:E; simpl; [|reflexivity].
  apply IH. apply andb_true_iff in E. destruct E as [_ E].
  apply String.eqb_eq in E. subst p.
  destruct Hq as [<- | Hq]; [contradiction|]. now exists q.
Qed.

(** The outcomes of [extract_plate_and_well_names], in the order the code
    reaches them: KeyError for a missing plate field; AssertionError as
    soon as one plate name differs from the first, even when the well
    field is missing too; KeyError for a missing well field; and otherwise
    the two columns as they are (an empty batch included). *)
Theorem extract_plate_and_well_names_outcomes
    (col_meta : list (string * list string)) (plate_field well_field : string) :
  (~ In plate_field (map fst col_meta) ->
   QcGct2pw.extract_plate_and_well_names col_meta plate_field well_field
   = Raise (KeyError (LStr plate_field))) /\
  (forall plate_names,
      QcGct2pw.get_field col_meta plate_field = Ok plate_names ->
      (exists p, In p plate_names /\ p <> hd EmptyString plate_names) ->
      QcGct2pw.extract_plate_and_well_names col_meta plate_field well_field
      = Raise (AssertionError "All samples must have the same plate name.")) /\
  (forall plate_names,
      QcGct2pw.get_field col_meta plate_field = Ok plate_names ->
      (forall p, In p plate_names -> p = hd EmptyString plate_names) ->
      ~ In well_field (map fst col_meta) ->
      QcGct2pw.extract_plate_and_well_names col_meta plate_field well_field
      = Raise (KeyError (LStr well_field))) /\
  (forall plate_names well_names,
      QcGct2pw.get_field col_meta plate_field = Ok plate_names ->
      (forall p, In p plate_names -> p = hd EmptyString plate_names) ->
      QcGct2pw.get_field col_meta well_field = Ok well_names ->
      QcGct2pw.extract_plate_and_well_names col_meta plate_field well_field
      = Ok (plate_names, well_names)).
Proof.
  unfold QcGct2pw.extract_plate_and_well_names.
  split; [|split; [|split]].
  - intro Hnot. now rewrite get_field_missing.
  - intros plate_names Hplate Hdiff. rewrite Hplate. simpl.
    now rewrite check_plate_names_differ.
  - intros plate_names Hplate Hsame Hnot. rewrite Hplate. simpl.
    rewrite (check_plate_names_same _ _ Hsame). simpl.
    now rewrite get_field_missing.
  - intros plate_names well_names Hplate Hsame Hwell. rewrite Hplate. simpl.
    rewrite (check_plate_names_same _ _ Hsame). simpl.
    now rewrite Hwell.
Qed.

Lemma extract_plate_and_well_names_outcomes_witness :
  QcGct2pw.extract_plate_and_well_names
    (QcGct2pw.col_metadata_df Sample.gct_two_plates) "det_plate" "no_such_field"
  = Raise (AssertionError "All samples must have the same plate name.") /\
  QcGct2pw.extract_plate_and_well_names
    (QcGct2pw.col_metadata_df Sample.gct_no_samples) "det_plate" "det_well"
  = Ok ([], []).
Proof.
  split.
  - apply (proj1 (proj2 (extract_plate_and_well_names_outcomes
                           (QcGct2pw.col_metadata_df Sample.gct_two_plates)
                           "det_plate" "no_such_field"))
             ["P1"; "P2"]%string eq_refl).
    exists "P2"%string. split; [simpl; tauto | discriminate].
  - apply (proj2 (proj2 (proj2 (extract_plate_and_well_names_outcomes
                                  (QcGct2pw.col_metadata_df Sample.gct_no_samples)
                                  "det_plate" "det_well")))
             [] [] eq_refl); [|reflexivity].
    intros p [].
Defined.

(** The failures of [main] after the names are extracted: KeyError when
    the metadata has no provenance field; IndexError when the batch has no
    sample (there is no first provenance code); AssertionError when the
    number of samples in the metadata differs from the number of data
    columns. *)
Theorem main_failures
    (plate_field well_field : string) (gct : QcGct2pw.GCToo)
    (plate_names well_names : list string)
    (Hnames : QcGct2pw.extract_plate_and_well_names
                (QcGct2pw.col_metadata_df gct) plate_field well_field
              = Ok (plate_names, well_names)) :
  (~ In QcGct2pw.PROV_CODE_FIELD (map fst (QcGct2pw.col_metadata_df gct)) ->
   QcGct2pw.main plate_field well_field gct
   = Raise (KeyError (LStr "provenance_code"))) /\
  (QcGct2pw.get_field (QcGct2pw.col_metadata_df gct) QcGct2pw.PROV_CODE_FIELD = Ok [] ->
   QcGct2pw.main plate_field well_field gct = Raise IndexError) /\
  (forall code codes,
      QcGct2pw.get_field (QcGct2pw.col_metadata_df gct) QcGct2pw.PROV_CODE_FIELD
      = Ok (code :: codes) ->
      length plate_names = length well_names ->
      length (Pandas.columns (QcGct2pw.data_df gct)) <> length well_names ->
      QcGct2pw.main plate_field well_field gct
      = Raise (AssertionError
                 "The entry has a length which is not equal to num_wells.")).
Proof.
  unfold QcGct2pw.main. rewrite Hnames. simpl.
  split; [|split].
  - intro Hnot. now rewrite get_field_missing.
  - intros ->. reflexivity.
  - intros code codes -> Hlen Hcols. simpl.
    unfold QcGct2pw.assemble_output_df. rewrite Hlen, Nat.eqb_refl. simpl.
    rewrite reduce_cols_length, normalised_columns.
    now rewrite (proj2 (Nat.eqb_neq _ _) Hcols).
Qed.

Lemma main_failures_witness :
  QcGct2pw.main "det_plate" "det_well" Sample.gct_no_samples = Raise IndexError.
Proof.
  exact (proj1 (proj2 (main_failures "det_plate" "det_well" Sample.gct_no_samples
                         [] [] eq_refl))
           eq_refl).
Defined.

(** Only the provenance code of the FIRST sample decides whether the log
    transform is undone: two batches that differ in nothing but the codes
    of the other samples give the same result. *)
Theorem main_reads_first_provenance_code
    (plate_field well_field : string) (data : Pandas.DataFrame)
    (meta meta' : list (string * list string)) (code : string)
    (codes codes' : list string)
    (Hplate : QcGct2pw.get_field meta' plate_field = QcGct2pw.get_field meta plate_field)
    (Hwell : QcGct2pw.get_field meta' well_field = QcGct2pw.get_field meta well_field)
    (Hprov : QcGct2pw.get_field meta QcGct2pw.PROV_CODE_FIELD = Ok (code :: codes))
    (Hprov' : QcGct2pw.get_field meta' QcGct2pw.PROV_CODE_FIELD = Ok (code :: codes')) :
  QcGct2pw.main plate_field well_field (QcGct2pw.mk_gct data meta')
  = QcGct2pw.main plate_field well_field (QcGct2pw.mk_gct data meta).
Proof.
  unfold QcGct2pw.main, QcGct2pw.extract_plate_and_well_names. simpl.
  rewrite Hplate, Hwell, Hprov, Hprov'. reflexivity.
Qed.

Lemma main_reads_first_provenance_code_witness :
  QcGct2pw.main "det_plate" "det_well"
    (QcGct2pw.mk_gct (QcGct2pw.data_df Sample.gct)
       [("det_plate", ["P1"; "P1"]); ("det_well", ["A01"; "A02"]);
        ("provenance_code", ["PR1+SF8"; "PR1+L2X"])]%string)
  = QcGct2pw.main "det_plate" "det_well" Sample.gct.
Proof.
  exact (main_reads_first_provenance_code "det_plate" "det_well"
           (QcGct2pw.data_df Sample.gct)
           (QcGct2pw.col_metadata_df Sample.gct)
           [("det_plate", ["P1"; "P1"]); ("det_well", ["A01"; "A02"]);
            ("provenance_code", ["PR1+SF8"; "PR1+L2X"])]%string
           "PR1+SF8"%string
           ["PR1+SF8"%string] ["PR1+L2X"%string] eq_refl eq_refl eq_refl eq_refl).
Defined.

(** ** The provenance code as a string *)

Lemma split_nonempty (d : ascii) (s : string) : QcGct2pw.split d s <> [].
Proof.
  destruct s as [|c s]; simpl; [discriminate|].
  destruct (Ascii.eqb c d); [discriminate|].
  destruct (QcGct2pw.split d s); discriminate.
Qed.

Lemma join_cons (d : ascii) (tag : string) (tags : list string) :
  tags <> [] ->
  join d (tag :: tags) = (tag ++ String d (join d tags))%string.
Proof. destruct tags; [contradiction | reflexivity]. Qed.

Lemma join_split (d : ascii) (s : string) : join d (QcGct2pw.split d s) = s.
Proof.
  induction s as [|c s IH]; simpl; [reflexivity|].
  destruct (Ascii.eqb_spec c d) as [-> | Hneq].
  - rewrite join_cons by apply split_nonempty. simpl. now rewrite IH.
  - destruct (QcGct2pw.split d s) as [|w ws] eqn:E.
    + now apply split_nonempty in E.
    + destruct ws as [|w' ws].
      * simpl in *. now rewrite IH.
      * rewrite join_cons by discriminate.
        rewrite join_cons in IH by discriminate.
        rewrite <- IH. reflexivity.
Qed.

Lemma split_tag_alone (d : ascii) (tag : string) :
  ~ has_char d tag -> QcGct2pw.split d tag = [tag].
Proof.
  unfold has_char. induction tag as [|c tag IH]; intro Hnot; simpl; [reflexivity|].
  simpl in Hnot. destruct (Ascii.eqb_spec c d) as [-> | Hneq].
  - exfalso. apply Hnot. now left.
  - rewrite IH; [reflexivity|]. intro H. apply Hnot. now right.
Qed.

Lemma split_tag_then (d : ascii) (tag rest : string) :
  ~ has_char d tag ->
  QcGct2pw.split d (tag ++ String d rest) = tag :: QcGct2pw.split d rest.
Proof.
  unfold has_char. induction tag as [|c tag IH]; intro Hnot; simpl.
  - now rewrite Ascii.eqb_refl.
  - simpl in Hnot. destruct (Ascii.eqb_spec c d) as [-> | Hneq].
    + exfalso. apply Hnot. now left.
    + rewrite IH; [reflexivity|]. intro H. apply Hnot. now right.
Qed.

Lemma split_join (d : ascii) (tags : list string) :
  tags <> [] -> (forall tag, In tag tags -> ~ has_char d tag) ->
  QcGct2pw.split d (join d tags) = tags.
Proof.
  induction tags as [|tag tags IH]; intros Hne Hclean; [contradiction|].
  destruct tags as [|tag' tags].
  - simpl. apply split_tag_alone. apply Hclean. now left.
  - rewrite join_cons by discriminate.
    rewrite split_tag_then by (apply Hclean; now left).
    f_equal. apply IH; [discriminate|]. intros t Ht. apply Hclean. now right.
Qed.

Lemma str_in_In (s : string) (l : list string) :
  Dry.str_in s l = true <-> In s l.
Proof.
  unfold Dry.str_in. rewrite existsb_exists. split.
  - intros (y & Hy & E). apply String.eqb_eq in E. now subst.
  - intro H. exists s. split; [exact H | apply String.eqb_refl].
Qed.

(** Splitting a stored provenance code gives back its tags, and joining
    the pieces of any string gives back the string; so [main] undoes the
    log transform exactly when "L2X" is one of the tags of the first code,
    a tag that merely contains "L2X" does not count. *)
Theorem log_transform_detected_by_tag
    (data : Pandas.DataFrame) (tags : list string)
    (Hne : tags <> [])
    (Hclean : forall tag, In tag tags -> ~ has_char QcGct2pw.PROV_CODE_DELIMITER tag) :
  QcGct2pw.split QcGct2pw.PROV_CODE_DELIMITER (join QcGct2pw.PROV_CODE_DELIMITER tags)
    = tags /\
  (forall s, join QcGct2pw.PROV_CODE_DELIMITER
               (QcGct2pw.split QcGct2pw.PROV_CODE_DELIMITER s) = s) /\
  (In "L2X"%string tags ->
   QcGct2pw.transformed data
     (QcGct2pw.split QcGct2pw.PROV_CODE_DELIMITER
        (join QcGct2pw.PROV_CODE_DELIMITER tags))
   = Pandas.map_cells exp2 data) /\
  (~ In "L2X"%string tags ->
   QcGct2pw.transformed data
     (QcGct2pw.split QcGct2pw.PROV_CODE_DELIMITER
        (join QcGct2pw.PROV_CODE_DELIMITER tags))
   = data).
Proof.
  split; [now apply split_join|]. split; [intro s; apply join_split|].
  rewrite (split_join _ tags Hne Hclean).
  unfold QcGct2pw.transformed, QcGct2pw.LOG_TRANSFORM_PROV_CODE_ENTRY.
  split; intro H.
  - now rewrite (proj2 (str_in_In _ _) H).
  - destruct (Dry.str_in _ tags) eqn:E; [|reflexivity].
    apply str_in_In in E. contradiction.
Qed.

Lemma log_transform_detected_by_tag_witness :
  QcGct2pw.transformed (QcGct2pw.data_df Sample.gct)
    (QcGct2pw.split "+" (join "+" ["PR1"; "XL2X"; "SF8"]%string))
  = QcGct2pw.data_df Sample.gct.
Proof.
  refine (proj2 (proj2 (proj2 (log_transform_detected_by_tag
            (QcGct2pw.data_df Sample.gct) ["PR1"; "XL2X"; "SF8"]%string _ _))) _).
  - discriminate.
  - unfold has_char. simpl.
    intros tag [<- | [<- | [<- | []]]]; simpl; intuition discriminate.
  - simpl. intuition discriminate.
Defined.

(** ** Assembling the output frame *)

Lemma dict_get_set_same (d : QcGct2pw.dict) (k : string) (v : QcGct2pw.column) :
  QcGct2pw.dict_get (QcGct2pw.dict_set d k v) k = Ok v.
Proof.
  induction d as [|[k' v'] d IH]; simpl.
  - now rewrite String.eqb_refl.
  - destruct (String.eqb k k') eqn:E; simpl.
    + now rewrite String.eqb_refl.
    + now rewrite E.
Qed.

Lemma dict_get_set_other (d : QcGct2pw.dict) (k k' : string) (v : QcGct2pw.column) :
  k' <> k ->
  QcGct2pw.dict_get (QcGct2pw.dict_set d k v) k' = QcGct2pw.dict_get d k'.
Proof.
  intro Hneq. induction d as [|[k0 v0] d IH]; simpl.
  - now rewrite (proj2 (String.eqb_neq _ _) Hneq).
  - destruct (String.eqb_spec k k0) as [-> | Hk]; simpl.
    + now rewrite (proj2 (String.eqb_neq _ _) Hneq).
    + destruct (String.eqb k' k0); [reflexivity | exact IH].
Qed.

Lemma dict_update_other (d other : QcGct2pw.dict) (k : string) :
  ~ In k (map fst other) ->
  QcGct2pw.dict_get (QcGct2pw.dict_update d other) k = QcGct2pw.dict_get d k.
Proof.
  unfold QcGct2pw.dict_update.
  revert d. induction other as [|[k0 v0] other IH]; intros d Hnot; simpl;
    [reflexivity|].
  rewrite IH by (intro H; apply Hnot; now right).
  apply dict_get_set_other. intros ->. apply Hnot. now left.
Qed.

Lemma dict_update_entry (d other : QcGct2pw.dict) (k : string) (v : QcGct2pw.column) :
  NoDup (map fst other) -> In (k, v) other ->
  QcGct2pw.dict_get (QcGct2pw.dict_update d other) k = Ok v.
Proof.
  unfold QcGct2pw.dict_update.
  revert d. induction other as [|[k0 v0] other IH]; intros d Hnd Hin;
    [contradiction|].
  simpl in *. inversion Hnd as [|? ? Hnotin Hnd']; subst.
  destruct Hin as [[= -> ->] | Hin].
  - pose proof (dict_update_other (QcGct2pw.dict_set d k v) other k Hnotin) as H.
    unfold QcGct2pw.dict_update in H. rewrite H. apply dict_get_set_same.
  - now apply IH.
Qed.

(** Every entry of the updated dictionary comes from the old one or from
    the update. *)
Lemma dict_update_origin (d other : QcGct2pw.dict) (k : string) (v : QcGct2pw.column) :
  QcGct2pw.dict_get (QcGct2pw.dict_update d other) k = Ok v ->
  QcGct2pw.dict_get d k = Ok v \/ In (k, v) other.
Proof.
  unfold QcGct2pw.dict_update.
  revert d. induction other as [|[k0 v0] other IH]; intros d Hget; simpl in *;
    [now left|].
  destruct (IH _ Hget) as [H | H]; [|now right; right].
  destruct (String.eqb_spec k k0) as [-> | Hneq].
  - rewrite dict_get_set_same in H. injection H as <-. right. now left.
  - rewrite dict_get_set_other in H by exact Hneq. now left.
Qed.

Lemma dict_update_found (d other : QcGct2pw.dict) (k : string) :
  (exists v, QcGct2pw.dict_get d k = Ok v) \/ In k (map fst other) ->
  exists v, QcGct2pw.dict_get (QcGct2pw.dict_update d other) k = Ok v.
Proof.
  unfold QcGct2pw.dict_update.
  revert d. induction other as [|[k0 v0] other IH]; intros d H; simpl in *.
  - destruct H as [H | []]. exact H.
  - apply IH. destruct H as [(v & Hv) | [-> | H]].
    + left. destruct (String.eqb_spec k k0) as [-> | Hneq].
      * exists v0. apply dict_get_set_same.
      * exists v. now rewrite dict_get_set_other.
    + left. exists v0. apply dict_get_set_same.
    + now right.
Qed.

Lemma insert_key_In (k x : string) (l : list string) :
  In x (QcGct2pw.insert_key k l) <-> x = k \/ In x l.
Proof.
  induction l as [|k' l IH]; simpl.
  - intuition.
  - destruct (String.leb k k'); simpl; [intuition|].
    rewrite IH. intuition.
Qed.

Lemma sorted_In (x : string) (l : list string) :
  In x (QcGct2pw.sorted l) <-> In x l.
Proof.
  unfold QcGct2pw.sorted. induction l as [|k l IH]; simpl; [tauto|].
  rewrite insert_key_In, IH. intuition.
Qed.

Lemma insert_key_ascending (k : string) (l : list string) :
  Sorted ascending l -> Sorted ascending (QcGct2pw.insert_key k l).
Proof.
  induction l as [|k' l IH]; intro Hs; simpl.
  - repeat constructor.
  - destruct (String.leb k k') eqn:E.
    + constructor; [exact Hs | constructor; exact E].
    + inversion Hs as [|? ? Hs' Hhd]; subst.
      constructor; [now apply IH|].
      assert (Hk : ascending k' k).
      { unfold ascending. destruct (String.leb_total k k'); congruence. }
      destruct l as [|k'' l]; simpl.
      * now constructor.
      * destruct (String.leb k k''); constructor; [exact Hk|].
        now inversion Hhd.
Qed.

Lemma sorted_ascending (l : list string) :
  Sorted ascending (QcGct2pw.sorted l).
Proof.
  unfold QcGct2pw.sorted. induction l as [|k l IH]; simpl; [constructor|].
  now apply insert_key_ascending.
Qed.

Lemma select_columns_found (d : QcGct2pw.dict) (cols : list string) :
  (forall c, In c cols -> exists v, QcGct2pw.dict_get d c = Ok v) ->
  exists out,
    QcGct2pw.select_columns d cols = Ok out /\
    map fst out = cols /\
    (forall c v, In (c, v) out -> QcGct2pw.dict_get d c = Ok v) /\
    (forall c v, In c cols -> QcGct2pw.dict_get d c = Ok v -> In (c, v) out).
Proof.
  induction cols as [|c cols IH]; intro Hall; simpl.
  - exists []. repeat split; auto; intros ? ? [].
  - destruct (Hall c) as (v & Hv); [now left|].
    destruct IH as (rest & Hrest & Hfst & Hsound & Hcomplete).
    { intros c' Hc'. apply Hall. now right. }
    rewrite Hv, Hrest. simpl. exists ((c, v) :: rest).
    split; [reflexivity|]. split; [simpl; now rewrite Hfst|]. split.
    + intros c' v' [[= <- <-] | H]; [exact Hv | now apply Hsound].
    + intros c' v' [<- | Hc'] Hget.
      * left. congruence.
      * right. now apply Hcomplete.
Qed.

Lemma check_lengths_ok (kwargs : QcGct2pw.dict) (n : nat) :
  (forall kv, In kv kwargs -> QcGct2pw.len (snd kv) = n) ->
  QcGct2pw.check_lengths kwargs n = Ok tt.
Proof.
  induction kwargs as [|kv kwargs IH]; intro Hall; simpl; [reflexivity|].
  rewrite (Hall kv) by now left. rewrite Nat.eqb_refl. simpl.
  apply IH. intros kv' H. apply Hall. now right.
Qed.

Lemma check_lengths_fail (kwargs : QcGct2pw.dict) (n : nat) :
  (exists kv, In kv kwargs /\ QcGct2pw.len (snd kv) <> n) ->
  QcGct2pw.check_lengths kwargs n
  = Raise (AssertionError "The entry has a length which is not equal to num_wells.").
Proof.
  induction kwargs as [|kv kwargs IH]; intros (bad & Hin & Hbad); [contradiction|].
  simpl. destruct (Nat.eqb_spec (QcGct2pw.len (snd kv)) n) as [E | E]; simpl;
    [|reflexivity].
  apply IH. destruct Hin as [<- | Hin]; [contradiction | now exists bad].
Qed.

(** [assemble_output_df] refuses names of unequal numbers and a keyword
    column of another length with AssertionError.  Otherwise it returns a
    frame whose columns are plate_name, well_name and then the keyword
    names in ascending order, every column with one entry per well; each
    keyword column is there under its name, and so are the plate and well
    names unless a keyword takes their name. *)
Theorem assemble_output_df_outcomes
    (plate_names well_names : list string) (kwargs : QcGct2pw.dict) :
  (length plate_names <> length well_names ->
   QcGct2pw.assemble_output_df plate_names well_names kwargs
   = Raise (AssertionError "")) /\
  (length plate_names = length well_names ->
   (exists kv, In kv kwargs /\ QcGct2pw.len (snd kv) <> length well_names) ->
   QcGct2pw.assemble_output_df plate_names well_names kwargs
   = Raise (AssertionError "The entry has a length which is not equal to num_wells.")) /\
  (length plate_names = length well_names ->
   (forall kv, In kv kwargs -> QcGct2pw.len (snd kv) = length well_names) ->
   NoDup (map fst kwargs) ->
   exists out_df,
     QcGct2pw.assemble_output_df plate_names well_names kwargs = Ok out_df /\
     map fst out_df
       = ["plate_name"; "well_name"]%string ++ QcGct2pw.sorted (map fst kwargs) /\
     Sorted ascending (skipn 2 (map fst out_df)) /\
     (forall kv, In kv out_df -> QcGct2pw.len (snd kv) = length well_names) /\
     (forall kv, In kv kwargs -> In kv out_df) /\
     (~ In "plate_name"%string (map fst kwargs) ->
      In ("plate_name"%string, QcGct2pw.StrCol plate_names) out_df) /\
     (~ In "well_name"%string (map fst kwargs) ->
      In ("well_name"%string, QcGct2pw.StrCol well_names) out_df)).
Proof.
  unfold QcGct2pw.assemble_output_df.
  split; [|split].
  - intro Hneq. now rewrite (proj2 (Nat.eqb_neq _ _) Hneq).
  - intros Hlen Hbad. rewrite Hlen, Nat.eqb_refl. simpl.
    now rewrite check_lengths_fail.
  - intros Hlen Hall Hnd. rewrite Hlen, Nat.eqb_refl. simpl.
    rewrite check_lengths_ok by exact Hall. simpl.
    set (base := [("plate_name"%string, QcGct2pw.StrCol plate_names);
                  ("well_name"%string, QcGct2pw.StrCol well_names)]).
    set (d := QcGct2pw.dict_update base kwargs).
    assert (Hfound : forall c,
               In c ("plate_name"%string :: "well_name"%string
                       :: QcGct2pw.sorted (map fst kwargs)) ->
               exists v, QcGct2pw.dict_get d c = Ok v).
    { intros c Hc. apply dict_update_found.
      destruct Hc as [<- | [<- | Hc]].
      - left. eexists. reflexivity.
      - left. eexists. reflexivity.
      - right. now apply sorted_In. }
    destruct (select_columns_found d _ Hfound)
      as (out & Hrun & Hfst & Hsound & Hcomplete).
    exists out. split; [exact Hrun|]. split; [exact Hfst|].
    split; [rewrite Hfst; apply sorted_ascending|].
    split; [|split; [|split]].
    + intros [c v] Hin. simpl. apply Hsound in Hin.
      apply dict_update_origin in Hin. destruct Hin as [Hin | Hin].
      * unfold base in Hin. simpl in Hin.
        destruct (String.eqb c "plate_name");
          [injection Hin as <-; simpl; exact Hlen|].
        destruct (String.eqb c "well_name");
          [injection Hin as <-; reflexivity | discriminate].
      * exact (Hall _ Hin).
    + intros [c v] Hin. apply Hcomplete.
      * right. right. apply sorted_In. apply in_map_iff. now exists (c, v).
      * now apply dict_update_entry.
    + intro Hnot. apply Hcomplete; [now left|].
      unfold d. now rewrite dict_update_other.
    + intro Hnot. apply Hcomplete; [right; now left|].
      unfold d. now rewrite dict_update_other.
Qed.

Lemma assemble_output_df_outcomes_witness :
  QcGct2pw.assemble_output_df ["P1"%string] ["A01"; "A02"]%string [] = Raise (AssertionError "") /\
  exists out_df,
    QcGct2pw.assemble_output_df ["P1"; "P1"]%string ["A01"; "A02"]%string
      [("z"%string, QcGct2pw.NumCol [Fin 1; Fin 2]);
       ("a"%string, QcGct2pw.NumCol [Fin 3; Fin 4])] = Ok out_df /\
    map fst out_df = ["plate_name"; "well_name"; "a"; "z"]%string.
Proof.
  split.
  - apply (proj1 (assemble_output_df_outcomes ["P1"%string] ["A01"; "A02"]%string [])).
    discriminate.
  - destruct (proj2 (proj2 (assemble_output_df_outcomes
                              ["P1"; "P1"]%string ["A01"; "A02"]%string
                              [("z"%string, QcGct2pw.NumCol [Fin 1; Fin 2]);
                               ("a"%string, QcGct2pw.NumCol [Fin 3; Fin 4])]))
                eq_refl)
      as (out & Hrun & Hfst & _).
    + intros kv [<- | [<- | []]]; reflexivity.
    + repeat constructor; simpl; intuition discriminate.
    + exists out. split; [exact Hrun | exact Hfst].
Defined.

(** ** The optimiser on labels that are not in position order *)

(** When every label 0 .. n-1 exists, in any order, the call succeeds; the
    distance at position [i] and the offset added to the column at
    POSITION [i] are the ones the minimiser found for the column LABELLED
    [i], which is another column unless label and position agree. *)
Theorem optimize_sample_balance_offsets_by_label
    (minimize_scalar : Dry.minimizer) (df : Pandas.DataFrame)
    (offset_bounds : float * float)
    (Hlabels : forall i, (i < length (Pandas.columns df))%nat ->
                 In (LInt (Z.of_nat i)) (Pandas.columns df)) :
  let n := length (Pandas.columns df) in
  let result := labelled_result minimize_scalar df offset_bounds in
  (exists printed,
     Dry.optimize_sample_balance minimize_scalar df offset_bounds
     = Ok ((Pandas.add_columns df (map (fun i => Dry.x (result i)) (seq 0 n)),
            map (fun i => Dry.fun_ (result i)) (seq 0 n)),
           printed)) /\
  (forall i j, Pandas.position (LInt (Z.of_nat i)) (Pandas.columns df) = Some j ->
     labelled_column df i = Pandas.column j df).
Proof.
  intros n result. split.
  - unfold Dry.optimize_sample_balance, Pandas.shape. simpl snd. fold n.
    pose proof (loop_labelled_rounds minimize_scalar df offset_bounds n 0) as Hloop.
    cbv beta zeta in Hloop. fold n in Hloop. rewrite !filled_0 in Hloop.
    rewrite Hloop by (try (simpl; lia); intros i Hi; apply Hlabels; fold n; lia).
    simpl. rewrite !filled_all. eexists. reflexivity.
  - intros i j Hpos. unfold labelled_column, Pandas.loc_column. now rewrite Hpos.
Qed.

Lemma optimize_sample_balance_offsets_by_label_witness :
  exists printed,
    Dry.optimize_sample_balance Sample.settle Sample.frame_swapped
                                Dry.default_offset_bounds
    = Ok ((Pandas.add_columns Sample.frame_swapped
             (map (fun i => Dry.x (labelled_result Sample.settle Sample.frame_swapped
                                     Dry.default_offset_bounds i)) [0; 1]%nat),
           map (fun i => Dry.fun_ (labelled_result Sample.settle Sample.frame_swapped
                                     Dry.default_offset_bounds i)) [0; 1]%nat),
          printed) /\
    labelled_column Sample.frame_swapped 0 = [Fin 10].
Proof.
  assert (Hlabels : forall i, (i < length (Pandas.columns Sample.frame_swapped))%nat ->
            In (LInt (Z.of_nat i)) (Pandas.columns Sample.frame_swapped)).
  { intros i Hi. simpl in Hi.
    destruct i as [|[|i]]; simpl; [now right; left | now left | lia]. }
  destruct (optimize_sample_balance_offsets_by_label
              Sample.settle Sample.frame_swapped Dry.default_offset_bounds Hlabels)
    as [(printed & Hrun) Hcol].
  exists printed. split; [exact Hrun|].
  exact (Hcol 0%nat 1%nat eq_refl).
Defined.
